(** * YouTube downloader API: a model of [main.py]

    The service has one endpoint, [POST /download].  The framework runs the
    security dependency [get_api_key], validates the JSON body against
    [DownloadRequest] and then calls the handler [download_video], which
    drives yt-dlp, optionally uploads to S3 and always cleans up the
    temporary file.

    The handler is embedded as a state-and-exception computation over a
    world made of the set of existing files and the trace of calls to the
    external collaborators.  The collaborators themselves (yt-dlp, boto3,
    the operating system, pydantic's URL type) are a record of arbitrary
    functions: every theorem below holds for all of them. *)

From Stdlib Require Import ZArith NArith String Ascii List Lia.
From stdpp Require Import gmap strings pretty.
Import ListNotations.

Open Scope string_scope.

(** ** Python strings *)

Module Py.

(** [s.startswith(p)] *)
Definition startswith (s p : string) : bool := String.prefix p s.

(** [s.endswith(p)] for a one-character [p] *)
Fixpoint endswith_char (s : string) (c : ascii) : bool :=
  match s with
  | EmptyString => false
  | String a EmptyString => Ascii.eqb a c
  | String _ rest => endswith_char rest c
  end.

(** [s.split(sep)] for a one-character separator: every occurrence of the
    separator cuts, so consecutive separators give empty words and the
    result is never empty. *)
Fixpoint split (sep : ascii) (s : string) : list string :=
  match s with
  | EmptyString => [EmptyString]
  | String c rest =>
      if Ascii.eqb c sep then EmptyString :: split sep rest
      else match split sep rest with
           | w :: ws => String c w :: ws
           | [] => [String c EmptyString]
           end
  end.

(** Truth value of an [Optional[str]]: [None] and [''] are false. *)
Definition truthy (o : option string) : bool :=
  match o with
  | Some s => negb (String.eqb s "")
  | None => false
  end.

(** [all([...])] over optional strings *)
Definition all (l : list (option string)) : bool := forallb truthy l.

(** [s != o] for a [str] and an [Optional[str]] *)
Definition str_ne_opt (s : string) (o : option string) : bool :=
  match o with
  | Some k => negb (String.eqb s k)
  | None => true
  end.

(** [posixpath.join(a, b)] *)
Definition os_path_join (a b : string) : string :=
  if startswith b "/" then b
  else if String.eqb a "" || endswith_char a "/" then a ++ b
  else a ++ "/" ++ b.

End Py.

(** ** UUIDs

    [uuid.UUID] holds a 128-bit integer; [str] renders it as 32 lower-case
    hexadecimal digits grouped 8-4-4-4-12. *)

Module UUID.

Record t := { int : N }.

Definition hex_digit (d : N) : ascii :=
  match N.to_nat d with
  | 0 => "0" | 1 => "1" | 2 => "2" | 3 => "3"
  | 4 => "4" | 5 => "5" | 6 => "6" | 7 => "7"
  | 8 => "8" | 9 => "9" | 10 => "a" | 11 => "b"
  | 12 => "c" | 13 => "d" | 14 => "e" | _ => "f"
  end%nat%char.

(** The [width] lowest hexadecimal digits of [n], most significant first. *)
Fixpoint hex_fixed (width : nat) (n : N) : string :=
  match width with
  | O => EmptyString
  | S w => String (hex_digit ((n / 16 ^ N.of_nat w) mod 16)) (hex_fixed w n)
  end.

Definition str (u : t) : string :=
  let n := int u in
  hex_fixed 8 (n / 2 ^ 96) ++ "-" ++
  hex_fixed 4 (n / 2 ^ 80) ++ "-" ++
  hex_fixed 4 (n / 2 ^ 64) ++ "-" ++
  hex_fixed 4 (n / 2 ^ 48) ++ "-" ++
  hex_fixed 12 n.

End UUID.

(** ** Exceptions *)

Inductive exn : Type :=
| DownloadError (msg : string)              (* yt_dlp.utils.DownloadError *)
| HTTPException (status_code : Z) (detail : string)
| RequestValidationError (msg : string)     (* fastapi.exceptions *)
| NoCredentialsError (msg : string)         (* botocore.exceptions *)
| PartialCredentialsError (msg : string)
| ClientError (msg : string)
| IndexError (msg : string)
| OSError (msg : string)
| OtherException (msg : string)             (* any other subclass of Exception *)
| NonException (msg : string).              (* BaseException outside Exception:
                                               KeyboardInterrupt, SystemExit, ... *)

(** [isinstance(e, Exception)] *)
Definition is_Exception (e : exn) : bool :=
  match e with
  | NonException _ => false
  | _ => true
  end.

(** [str(e)].  For [HTTPException] this is Starlette's [__str__],
    ["{status_code}: {detail}"]; the other classes print their message. *)
Definition str_exn (e : exn) : string :=
  match e with
  | HTTPException status_code detail => pretty status_code ++ ": " ++ detail
  | DownloadError msg | RequestValidationError msg | NoCredentialsError msg
  | PartialCredentialsError msg | ClientError msg | IndexError msg
  | OSError msg | OtherException msg | NonException msg => msg
  end.

Inductive outcome (A : Type) : Type :=
| Return (a : A)
| Raise (e : exn).
Arguments Return {A} a.
Arguments Raise {A} e.

(** ** Configuration (module-level globals of [main.py]) *)

Record Config := {
  API_KEY : option string;
  S3_BUCKET : option string;
  AWS_ACCESS_KEY_ID : option string;
  AWS_SECRET_ACCESS_KEY : option string;
  AWS_REGION : option string
}.

(** The module raises [ValueError] at import time when [API_KEY] is unset or
    empty, so a running service satisfies [startup_ok]. *)
Definition startup_ok (cfg : Config) : bool := Py.truthy (API_KEY cfg).

Definition storage_configured (cfg : Config) : bool :=
  Py.all [S3_BUCKET cfg; AWS_ACCESS_KEY_ID cfg; AWS_SECRET_ACCESS_KEY cfg; AWS_REGION cfg].

Definition TEMP_DIR : string := "temp_downloads".

(** ** Authentication *)

(** [get_api_key]: the header value must start with ["Bearer "]; the token
    is the second element of the value split on single spaces. *)
Definition get_api_key (cfg : Config) (key : string) : outcome string :=
  if negb (Py.startswith key "Bearer ") then
    Raise (HTTPException 401
             "Formato de 'Authorization' header inválido. Usar 'Bearer <clave>'.")
  else
    match nth_error (Py.split " " key) 1 with
    | None => Raise (IndexError "list index out of range")
    | Some token =>
        if Py.str_ne_opt token (API_KEY cfg) then
          Raise (HTTPException 401 "API Key inválido o expirado.")
        else Return token
    end.

(** ** Requests and responses *)

(** A validated [DownloadRequest]; [url] holds [str(request.url)]. *)
Record DownloadRequest := {
  url : string;
  format : string;
  to_s3 : bool
}.

(** The decoded JSON body before validation: each field may be absent. *)
Record Payload := {
  raw_url : option string;
  raw_format : option string;
  raw_to_s3 : option bool
}.

(** The two shapes of a successful answer. *)
Inductive Body : Type :=
| FileUrl (file_url : string)
| LocalFile (message filename local_path : string).

(** ** Options handed to yt-dlp *)

Record Postprocessor := {
  key : string;
  preferedformat : string
}.

Record YdlOpts := {
  ydl_format : string;
  outtmpl : string;
  merge_output_format : string;
  postprocessors : list Postprocessor;
  progress_hooks : list unit;
  noplaylist : bool
}.

(** ** The world: files on disk and the calls made so far *)

Inductive level := INFO | WARNING | ERROR.

Inductive event : Type :=
| Download (opts : YdlOpts) (urls : list string)
| S3Client (access_key secret_key region : option string)
| UploadFile (path : string) (bucket : option string) (object_key : string)
| PresignedUrl (bucket : option string) (object_key : string) (expires_in : Z)
| Remove (path : string)
| Log (lvl : level) (msg : string).

Record World := {
  files : gset string;
  trace : list event
}.

(** The external collaborators.  Each is an arbitrary function of its
    arguments and of the files present when it is called. *)
Record Externals := {
  (** [with yt_dlp.YoutubeDL(opts) as ydl: ydl.download(urls)]: the
      exception raised, if any, and the files afterwards *)
  ydl_download : YdlOpts -> list string -> gset string -> option exn * gset string;
  (** [boto3.client('s3', ...)] *)
  boto3_client : option string -> option string -> option string -> option exn;
  (** [s3_client.upload_file(path, bucket, key)] *)
  s3_upload_file : string -> option string -> string -> gset string -> option exn;
  (** [s3_client.generate_presigned_url('get_object', Params, ExpiresIn)] *)
  s3_generate_presigned_url : option string -> string -> Z -> exn + string;
  (** [os.remove(path)]: the message of the [OSError] raised, if any *)
  os_remove_error : string -> gset string -> option string;
  (** [os.path.abspath]: a function of the path text alone, it does not
      look at the files *)
  os_path_abspath : string -> string;
  (** pydantic's [HttpUrl]: the normalised URL, or [None] when invalid *)
  parse_http_url : string -> option string
}.

(** ** Computations that change the world and may raise *)

Definition M (A : Type) : Type := World -> outcome A * World.

Definition ret {A} (a : A) : M A := fun w => (Return a, w).

Definition raise {A} (e : exn) : M A := fun w => (Raise e, w).

Definition bind {A B} (m : M A) (k : A -> M B) : M B :=
  fun w =>
    match m w with
    | (Return a, w') => k a w'
    | (Raise e, w') => (Raise e, w')
    end.

Definition lift {A} (r : outcome A) : M A := fun w => (r, w).

Declare Scope handler_scope.
Delimit Scope handler_scope with handler.
Notation "x <- m ;; k" := (bind m (fun x => k))
  (at level 100, m at next level, right associativity) : handler_scope.
Notation "m ;; k" := (bind m (fun _ => k))
  (at level 100, right associativity) : handler_scope.

(** [try: body / except ...: handler]: [handlers e] is the first matching
    clause, [None] when no clause matches.  An exception raised by a
    handler is not offered to the sibling clauses. *)
Definition try_except {A} (body : M A) (handlers : exn -> option (M A)) : M A :=
  fun w =>
    match body w with
    | (Return a, w') => (Return a, w')
    | (Raise e, w') =>
        match handlers e with
        | Some handler => handler w'
        | None => (Raise e, w')
        end
    end.

(** [try: body / finally: final]: [final] always runs; the outcome of
    [body] stands unless [final] itself raises. *)
Definition try_finally {A} (body : M A) (final : M unit) : M A :=
  fun w =>
    match body w with
    | (r, w1) =>
        match final w1 with
        | (Return _, w2) => (r, w2)
        | (Raise e, w2) => (Raise e, w2)
        end
    end.

Definition emit (ev : event) : M unit :=
  fun w => (Return tt, {| files := files w; trace := trace w ++ [ev] |}).

Definition log (lvl : level) (msg : string) : M unit := emit (Log lvl msg).

(** [os.path.exists(path)] *)
Definition os_path_exists (path : string) : M bool :=
  fun w => (Return (bool_decide (path ∈ files w)), w).

(** ** The handler *)

Section Handler.

Context (E : Externals) (cfg : Config).

Local Open Scope handler_scope.

(** The download step: yt-dlp is created with the options and asked for
    the single URL of the request. *)
Definition run_ydl (opts : YdlOpts) (urls : list string) : M unit :=
  fun w =>
    match ydl_download E opts urls (files w) with
    | (r, fs) =>
        let w' := {| files := fs; trace := trace w ++ [Download opts urls] |} in
        match r with
        | None => (Return tt, w')
        | Some e => (Raise e, w')
        end
    end.

Definition new_s3_client (access_key secret_key region : option string) : M unit :=
  emit (S3Client access_key secret_key region);;
  match boto3_client E access_key secret_key region with
  | None => ret tt
  | Some e => raise e
  end.

Definition upload_file (path : string) (bucket : option string) (object_key : string)
  : M unit :=
  emit (UploadFile path bucket object_key);;
  fun w =>
    match s3_upload_file E path bucket object_key (files w) with
    | None => (Return tt, w)
    | Some e => (Raise e, w)
    end.

Definition generate_presigned_url (bucket : option string) (object_key : string)
    (expires_in : Z) : M string :=
  emit (PresignedUrl bucket object_key expires_in);;
  match s3_generate_presigned_url E bucket object_key expires_in with
  | inr u => ret u
  | inl e => raise e
  end.

(** [os.remove(path)]: on success the path is gone, on failure nothing
    changes and [OSError] is raised. *)
Definition os_remove (path : string) : M unit :=
  emit (Remove path);;
  fun w =>
    match os_remove_error E path (files w) with
    | None => (Return tt, {| files := files w ∖ {[ path ]}; trace := trace w |})
    | Some msg => (Raise (OSError msg), w)
    end.

(** The [ydl_opts] dictionary (without the logger object). *)
Definition ydl_opts (request : DownloadRequest) (output_path : string) : YdlOpts :=
  {| ydl_format := "bestvideo[ext=" ++ format request ++ "]+bestaudio/best";
     outtmpl := output_path;
     merge_output_format := format request;
     postprocessors :=
       [ {| key := "FFmpegVideoConvertor"; preferedformat := format request |} ];
     progress_hooks := [];
     noplaylist := true |}.

Definition output_filename (unique_id : UUID.t) (request : DownloadRequest) : string :=
  UUID.str unique_id ++ "." ++ format request.

Definition output_path (unique_id : UUID.t) (request : DownloadRequest) : string :=
  Py.os_path_join TEMP_DIR (output_filename unique_id request).

Definition str_opt (o : option string) : string :=
  match o with
  | Some s => s
  | None => "None"
  end.

(** The [except] clauses of the inner [try], around the S3 upload. *)
Definition upload_handlers (e : exn) : option (M Body) :=
  match e with
  | NoCredentialsError _ | PartialCredentialsError _ =>
      Some (log ERROR "Credenciales de AWS no encontradas.";;
            raise (HTTPException 500 "Error de configuración de credenciales de AWS."))
  | ClientError _ =>
      Some (log ERROR ("Error de cliente de S3: " ++ str_exn e);;
            raise (HTTPException 500 ("Error al interactuar con S3: " ++ str_exn e)))
  | _ => None
  end.

(** The body of the inner [try]. *)
Definition upload_steps (filename path : string) : M Body :=
  new_s3_client (AWS_ACCESS_KEY_ID cfg) (AWS_SECRET_ACCESS_KEY cfg) (AWS_REGION cfg);;
  log INFO ("Subiendo '" ++ filename ++ "' al bucket '" ++ str_opt (S3_BUCKET cfg) ++ "'...");;
  upload_file path (S3_BUCKET cfg) filename;;
  log INFO "Generando URL prefirmada...";;
  presigned_url <- generate_presigned_url (S3_BUCKET cfg) filename 3600;;
  ret (FileUrl presigned_url).

Definition upload (filename path : string) : M Body :=
  try_except (upload_steps filename path) upload_handlers.

(** The body of the outer [try]. *)
Definition try_body (request : DownloadRequest) (filename path : string) : M Body :=
  run_ydl (ydl_opts request path) [url request];;
  log INFO ("Descarga completada. Archivo guardado en: " ++ path);;
  present <- os_path_exists path;;
  if negb present then
    raise (HTTPException 500 "El archivo no se generó después de la descarga.")
  else if to_s3 request then
    if negb (storage_configured cfg) then
      raise (HTTPException 501 "El servidor no está configurado para subir a S3.")
    else upload filename path
  else
    ret (LocalFile "Archivo descargado localmente." filename (os_path_abspath E path)).

(** The [except] clauses of the outer [try], in source order:
    [DownloadError] first, then [Exception]. *)
Definition outer_handlers (e : exn) : option (M Body) :=
  match e with
  | DownloadError _ =>
      Some (log ERROR ("Error de yt-dlp: " ++ str_exn e);;
            raise (HTTPException 400 ("No se pudo descargar el video. Causa: " ++ str_exn e)))
  | _ =>
      if is_Exception e then
        Some (log ERROR ("Un error inesperado ocurrió: " ++ str_exn e);;
              raise (HTTPException 500 ("Error interno del servidor: " ++ str_exn e)))
      else None
  end.

(** The [finally] block. *)
Definition cleanup (path : string) : M unit :=
  present <- os_path_exists path;;
  if present then
    try_except
      (os_remove path;;
       log INFO ("Archivo temporal '" ++ path ++ "' eliminado."))
      (fun e =>
         match e with
         | OSError _ =>
             Some (log ERROR ("Error al eliminar el archivo temporal '" ++ path
                              ++ "': " ++ str_exn e))
         | _ => None
         end)
  else ret tt.

(** The [try] statement without its [finally] block. *)
Definition guarded (request : DownloadRequest) (filename path : string) : M Body :=
  try_except (try_body request filename path) outer_handlers.

(** [download_video]; [unique_id] is the value [uuid.uuid4()] returns. *)
Definition download_video (unique_id : UUID.t) (request : DownloadRequest) : M Body :=
  let filename := output_filename unique_id request in
  let path := output_path unique_id request in
  log INFO ("Iniciando descarga para URL: " ++ url request ++ " con ID: "
            ++ UUID.str unique_id);;
  try_finally (guarded request filename path) (cleanup path).

End Handler.

(** ** The endpoint as the framework drives it *)

(** Modelled from the spec: the status with which the security scheme
    [APIKeyHeader(name="Authorization", auto_error=True)] rejects a request
    that carries no [Authorization] header.  The scheme is framework code,
    absent from [main.py]; the spec lists the absent header under the
    Unauthorized error, 401. *)
Definition not_authenticated_status : Z := 401.

(** [api_key_header]: the raw header value, or the scheme's own rejection
    when the header is absent or empty. *)
Definition api_key_header (authorization : option string) : outcome string :=
  match authorization with
  | Some value =>
      if String.eqb value "" then
        Raise (HTTPException not_authenticated_status "Not authenticated")
      else Return value
  | None => Raise (HTTPException not_authenticated_status "Not authenticated")
  end.

(** Validation of the body against [DownloadRequest]: [url] is required and
    must be an [HttpUrl]; [format] defaults to ["mp4"], [to_s3] to [True]. *)
Definition validate (E : Externals) (payload : Payload) : outcome DownloadRequest :=
  match raw_url payload with
  | None => Raise (RequestValidationError "url: Field required")
  | Some u =>
      match parse_http_url E u with
      | None => Raise (RequestValidationError "url: Input should be a valid URL")
      | Some normalised =>
          Return {| url := normalised;
                    format := default "mp4" (raw_format payload);
                    to_s3 := default true (raw_to_s3 payload) |}
      end
  end.

(** [@app.post("/download", dependencies=[Security(get_api_key)])]: the
    dependency is solved first, then the body is validated, then the
    handler runs. *)
Definition post_download (E : Externals) (cfg : Config)
    (authorization : option string) (payload : Payload) (unique_id : UUID.t) : M Body :=
  (key <- lift (api_key_header authorization);;
   _ <- lift (get_api_key cfg key);;
   request <- lift (validate E payload);;
   download_video E cfg unique_id request)%handler.

(** The status of the HTTP response the framework sends for an outcome: 200
    for a returned body, the exception's own status for [HTTPException], 422
    for a validation error (no handler for it is installed in [main.py]),
    500 for any other [Exception]; other exceptions abort the request
    without a response. *)
Definition response_status {A} (r : outcome A) : option Z :=
  match r with
  | Return _ => Some 200%Z
  | Raise (HTTPException status_code _) => Some status_code
  | Raise (RequestValidationError _) => Some 422%Z
  | Raise (NonException _) => None
  | Raise _ => Some 500%Z
  end.

(** The calls to yt-dlp recorded in a trace. *)
Definition is_download (ev : event) : bool :=
  match ev with
  | Download _ _ => true
  | _ => false
  end.

Definition download_calls (w : World) : list event := filter is_download (trace w).

(** The fallback chain a format selector encodes: its alternatives, split
    at ["/"]. *)
Definition selector_alternatives (opts : YdlOpts) : list string :=
  Py.split "/" (ydl_format opts).

(** The three-step fallback of the specification for a container [fmt],
    which the comment above [ydl_opts] in [main.py] also describes: the
    best video of that container merged with the best audio, else the best
    pre-merged stream of that container, else the best stream. *)
Definition three_step_selector (fmt : string) : list string :=
  [ "bestvideo[ext=" ++ fmt ++ "]+bestaudio"; "best[ext=" ++ fmt ++ "]"; "best" ].

(** The world once the handler has logged its first line and enters the
    [try] statement. *)
Definition started (unique_id : UUID.t) (request : DownloadRequest) (w : World) : World :=
  {| files := files w;
     trace := trace w ++ [Log INFO ("Iniciando descarga para URL: " ++ url request
                                    ++ " con ID: " ++ UUID.str unique_id)] |}.

(** A world with further events recorded and the same files. *)
Definition logged (w : World) (evs : list event) : World :=
  {| files := files w; trace := trace w ++ evs |}.

(** The world right after yt-dlp has run from [w] and left the files [fs]. *)
Definition downloaded (request : DownloadRequest) (path : string) (fs : gset string)
    (w : World) : World :=
  {| files := fs;
     trace := trace w ++ [Download (ydl_opts request path) [url request];
                          Log INFO ("Descarga completada. Archivo guardado en: " ++ path)] |}.

(** A string without the character [sep]. *)
Fixpoint free_of (sep : ascii) (s : string) : bool :=
  match s with
  | EmptyString => true
  | String c rest => negb (Ascii.eqb c sep) && free_of sep rest
  end.

(** The headers the authenticator turns away: no header at all, a value
    that does not begin with ["Bearer "], or a token (the second element of
    the value split on spaces) that differs from the configured key. *)
Definition rejected_header (cfg : Config) (authorization : option string) : Prop :=
  match authorization with
  | None => True
  | Some value =>
      Py.startswith value "Bearer " = false \/
      exists token, nth_error (Py.split " " value) 1 = Some token /\
                    API_KEY cfg <> Some token
  end.

(** ** Sample configurations and collaborators *)

Definition sample_config : Config :=
  {| API_KEY := Some "s3cr3t";
     S3_BUCKET := Some "videos";
     AWS_ACCESS_KEY_ID := Some "AKIAEXAMPLE";
     AWS_SECRET_ACCESS_KEY := Some "wJalrEXAMPLEKEY";
     AWS_REGION := Some "eu-west-1" |}.

(** The same service started without the AWS variables. *)
Definition sample_config_no_storage : Config :=
  {| API_KEY := Some "s3cr3t";
     S3_BUCKET := None;
     AWS_ACCESS_KEY_ID := None;
     AWS_SECRET_ACCESS_KEY := None;
     AWS_REGION := None |}.

(** Collaborators with a chosen behaviour: [failure] is what yt-dlp raises,
    [writes] says whether it leaves a file at [outtmpl], [storage_failure]
    is what the upload raises and [remove_failure] what [os.remove] raises. *)
Definition sample_externals (failure : option exn) (writes : bool)
    (storage_failure : option exn) (remove_failure : option string) : Externals :=
  {| ydl_download := fun opts _ fs =>
       (failure, if writes then fs ∪ {[ outtmpl opts ]} else fs);
     boto3_client := fun _ _ _ => None;
     s3_upload_file := fun _ _ _ _ => storage_failure;
     s3_generate_presigned_url := fun bucket object_key expires_in =>
       inr ("https://" ++ default "" bucket ++ ".s3.amazonaws.com/" ++ object_key
            ++ "?X-Amz-Expires=" ++ pretty expires_in);
     os_remove_error := fun _ _ => remove_failure;
     os_path_abspath := fun path => "/srv/api/" ++ path;
     parse_http_url := fun u =>
       if Py.startswith u "https://" || Py.startswith u "http://" then Some u else None |}.

Definition sample_uuid : UUID.t := {| UUID.int := 0x3f2b8c1e9d4a4f6ab7c5d1e2f3a4b5c6 |}.

Definition sample_request (upload : bool) : DownloadRequest :=
  {| url := "https://youtu.be/abc123"; format := "mp4"; to_s3 := upload |}.

Definition sample_payload : Payload :=
  {| raw_url := Some "https://youtu.be/abc123"; raw_format := None; raw_to_s3 := Some false |}.

Definition empty_world : World := {| files := ∅; trace := [] |}.

(** ** Start-up: the module level of [main.py] *)

(** [os.getenv] over the process environment. *)
Definition read_config (getenv : string -> option string) : Config :=
  {| API_KEY := getenv "API_KEY";
     S3_BUCKET := getenv "S3_BUCKET";
     AWS_ACCESS_KEY_ID := getenv "AWS_ACCESS_KEY_ID";
     AWS_SECRET_ACCESS_KEY := getenv "AWS_SECRET_ACCESS_KEY";
     AWS_REGION := getenv "AWS_REGION" |}.

(** The configuration block run at import: the five variables are read, a
    missing or empty [API_KEY] raises [ValueError] (an [Exception] like any
    other here), incomplete AWS variables only log a warning. *)
Definition module_init (getenv : string -> option string) : M Config :=
  (let cfg := read_config getenv in
   if negb (Py.truthy (API_KEY cfg)) then
     raise (OtherException "La variable de entorno API_KEY no está configurada.")
   else
     (if negb (Py.all [S3_BUCKET cfg; AWS_ACCESS_KEY_ID cfg;
                       AWS_SECRET_ACCESS_KEY cfg; AWS_REGION cfg])
      then log WARNING
             "Faltan una o más variables de entorno de AWS. La subida a S3 no funcionará."
      else ret tt);;
     ret cfg)%handler.

(** The calls to the storage service recorded in a trace. *)
Definition is_s3_call (ev : event) : bool :=
  match ev with
  | S3Client _ _ _ | UploadFile _ _ _ | PresignedUrl _ _ _ => true
  | _ => false
  end.

Definition s3_calls (w : World) : list event := filter is_s3_call (trace w).

(** A computation that leaves the files alone and only appends events
    satisfying [allowed] to the trace. *)
Definition appends {A} (allowed : event -> bool) (m : M A) : Prop :=
  forall w,
    files (snd (m w)) = files w /\
    exists evs, trace (snd (m w)) = (trace w ++ evs)%list /\ forallb allowed evs = true.

Definition not_download (ev : event) : bool := negb (is_download ev).

Definition not_s3_call (ev : event) : bool := negb (is_s3_call ev).

(** An environment with every variable set, and one with the key only. *)
Definition sample_environ (name : string) : option string :=
  if String.eqb name "API_KEY" then Some "s3cr3t"
  else if String.eqb name "S3_BUCKET" then Some "videos"
  else if String.eqb name "AWS_ACCESS_KEY_ID" then Some "AKIAEXAMPLE"
  else if String.eqb name "AWS_SECRET_ACCESS_KEY" then Some "wJalrEXAMPLEKEY"
  else if String.eqb name "AWS_REGION" then Some "eu-west-1"
  else None.

Definition sample_environ_key_only (name : string) : option string :=
  if String.eqb name "API_KEY" then Some "s3cr3t" else None.

Definition is_log (ev : event) : bool :=
  match ev with
  | Log _ _ => true
  | _ => false
  end.

Definition s3_call_or_log (ev : event) : bool := is_s3_call ev || is_log ev.

(** Whether a run reaches the upload: yt-dlp returned normally leaving the
    files [fs], the output file is there, the request asks for an upload
    and storage is configured. *)
Definition reaches_upload (cfg : Config) (request : DownloadRequest) (path : string)
    (r : option exn) (fs : gset string) : bool :=
  match r with
  | None => bool_decide (path ∈ fs) && to_s3 request && storage_configured cfg
  | Some _ => false
  end.

(** * Properties *)

(** ** Strings *)

Section Strings.

Variable sep : ascii.

Lemma split_not_nil (s : string) : Py.split sep s <> [].
Proof.
  destruct s as [|c rest]; simpl; [discriminate|].
  destruct (Ascii.eqb c sep); [discriminate|].
  destruct (Py.split sep rest); discriminate.
Qed.

Lemma split_word (s : string) : free_of sep s = true -> Py.split sep s = [s].
Proof.
  induction s as [|c rest IH]; simpl; [reflexivity|].
  intros [Hc Hrest]%andb_prop.
  apply negb_true_iff in Hc. rewrite Hc, (IH Hrest). reflexivity.
Qed.

Lemma split_word_sep (s rest : string) :
  free_of sep s = true ->
  Py.split sep (s ++ String sep rest) = s :: Py.split sep rest.
Proof.
  induction s as [|c s' IH]; simpl.
  - intros _. rewrite Ascii.eqb_refl. reflexivity.
  - intros [Hc Hs']%andb_prop.
    apply negb_true_iff in Hc. rewrite Hc, (IH Hs'). reflexivity.
Qed.

(** Splitting undoes joining for separator-free words. *)
Lemma split_concat (words : list string) :
  forallb (free_of sep) words = true ->
  Py.split sep (String.concat (String sep EmptyString) words) =
    match words with
    | [] => [EmptyString]
    | _ => words
    end.
Proof.
  induction words as [|w1 ws IH]; [reflexivity|].
  simpl. intros [Hw1 Hws]%andb_prop.
  destruct ws as [|w2 ws'].
  - apply split_word, Hw1.
  - replace (w1 ++ String sep "" ++ String.concat (String sep "") (w2 :: ws'))
      with (w1 ++ String sep (String.concat (String sep "") (w2 :: ws')))
      by reflexivity.
    rewrite (split_word_sep _ _ Hw1), (IH Hws). reflexivity.
Qed.

End Strings.

Lemma startswith_app (s p : string) :
  Py.startswith s p = true -> exists rest, s = p ++ rest.
Proof.
  unfold Py.startswith. revert s.
  induction p as [|c p IH]; intros s H.
  - exists s. reflexivity.
  - destruct s as [|d s]; simpl in H; [discriminate|].
    destruct (ascii_dec c d) as [->|]; [|discriminate].
    destruct (IH s H) as [rest ->]. exists rest. reflexivity.
Qed.

Lemma startswith_app_refl (p rest : string) : Py.startswith (p ++ rest) p = true.
Proof.
  unfold Py.startswith. induction p as [|c p IH]; simpl.
  - destruct rest; reflexivity.
  - destruct (ascii_dec c c); [exact IH | contradiction].
Qed.

(** After ["Bearer "] the split always has a second element: the index
    [[1]] never fails. *)
Lemma split_Bearer (rest : string) :
  Py.split " " ("Bearer " ++ rest) = "Bearer" :: Py.split " " rest.
Proof. reflexivity. Qed.

Lemma token_of_Bearer (rest : string) :
  nth_error (Py.split " " ("Bearer " ++ rest)) 1 = Some (hd "" (Py.split " " rest)).
Proof.
  rewrite split_Bearer. simpl.
  destruct (Py.split " " rest) eqn:Hs; [|reflexivity].
  destruct (split_not_nil _ _ Hs).
Qed.

(** ** Authentication *)

Lemma get_api_key_Bearer (cfg : Config) (rest : string) :
  get_api_key cfg ("Bearer " ++ rest) =
    let token := hd "" (Py.split " " rest) in
    if Py.str_ne_opt token (API_KEY cfg)
    then Raise (HTTPException 401 "API Key inválido o expirado.")
    else Return token.
Proof.
  unfold get_api_key.
  rewrite startswith_app_refl, token_of_Bearer. reflexivity.
Qed.

(** The index [[1]] in [get_api_key] is always in range: the dependency
    only ever raises the two 401 errors. *)
Lemma get_api_key_total (cfg : Config) (value : string) :
  (exists token, get_api_key cfg value = Return token /\ API_KEY cfg = Some token) \/
  (exists detail, get_api_key cfg value = Raise (HTTPException 401 detail)).
Proof.
  destruct (Py.startswith value "Bearer ") eqn:Hp.
  - destruct (startswith_app _ _ Hp) as [rest ->].
    rewrite get_api_key_Bearer. cbv zeta.
    destruct (API_KEY cfg) as [k|] eqn:Hk; simpl.
    + destruct (String.eqb_spec (hd "" (Py.split " " rest)) k) as [->|]; simpl; eauto.
    + eauto.
  - right. unfold get_api_key. rewrite Hp. simpl. eauto.
Qed.


(** Every header is either rejected or carries exactly the configured key
    as its token. *)
Lemma accepted_or_rejected (cfg : Config) (value : string) :
  rejected_header cfg (Some value) \/
  exists token, get_api_key cfg value = Return token /\ API_KEY cfg = Some token.
Proof.
  destruct (get_api_key_total cfg value) as [Hok | [detail Hraise]]; [right; exact Hok|].
  left. unfold get_api_key in Hraise. unfold rejected_header.
  destruct (Py.startswith value "Bearer ") eqn:Hp; [|left; reflexivity].
  right. cbn [negb] in Hraise.
  destruct (nth_error (Py.split " " value) 1) as [token|]; [|discriminate].
  exists token. split; [reflexivity|].
  intros Hkey. rewrite Hkey in Hraise. simpl in Hraise.
  rewrite String.eqb_refl in Hraise. discriminate.
Qed.



(** C10: after ["Bearer "] only the first space-separated word is compared
    with the API key.  For a header made of ["Bearer "] and words joined by
    single spaces the first word decides; ["Bearer <key> extra"] is
    accepted; two spaces after ["Bearer"] compare the empty string, which a
    running service (whose key is not empty) rejects with 401. *)
Theorem token_is_first_word (cfg : Config) (k : string) :
  API_KEY cfg = Some k ->
  startup_ok cfg = true ->
  free_of " " k = true ->
  (forall words, forallb (free_of " ") words = true ->
     get_api_key cfg ("Bearer " ++ String.concat " " words) =
       if String.eqb (hd "" words) k then Return (hd "" words)
       else Raise (HTTPException 401 "API Key inválido o expirado.")) /\
  (forall extra, get_api_key cfg ("Bearer " ++ k ++ " " ++ extra) = Return k) /\
  (forall rest,
     get_api_key cfg ("Bearer  " ++ rest) =
       Raise (HTTPException 401 "API Key inválido o expirado.") /\
     response_status (get_api_key cfg ("Bearer  " ++ rest)) = Some 401%Z).
Proof.
  intros Hkey Hstart Hfree. repeat split.
  - intros words Hwords. rewrite get_api_key_Bearer, split_concat by exact Hwords.
    rewrite Hkey. cbv zeta.
    replace (hd "" match words with [] => [""] | _ :: _ => words end) with (hd "" words)
      by (destruct words; reflexivity).
    simpl. destruct (String.eqb (hd "" words) k); reflexivity.
  - intros extra. rewrite get_api_key_Bearer.
    change (k ++ " " ++ extra) with (k ++ String " " extra).
    rewrite split_word_sep by exact Hfree.
    rewrite Hkey. simpl. rewrite String.eqb_refl. reflexivity.
  - change ("Bearer  " ++ rest) with ("Bearer " ++ String " " rest).
    rewrite get_api_key_Bearer, Hkey. simpl.
    unfold startup_ok in Hstart. rewrite Hkey in Hstart. simpl in Hstart.
    destruct k; [discriminate | reflexivity].
  - change ("Bearer  " ++ rest) with ("Bearer " ++ String " " rest).
    rewrite get_api_key_Bearer, Hkey. simpl.
    unfold startup_ok in Hstart. rewrite Hkey in Hstart. simpl in Hstart.
    destruct k; [discriminate | reflexivity].
Qed.

Lemma token_is_first_word_witness :
  get_api_key sample_config "Bearer s3cr3t extra words" = Return "s3cr3t" /\
  get_api_key sample_config "Bearer  s3cr3t" =
    Raise (HTTPException 401 "API Key inválido o expirado.").
Proof.
  destruct (token_is_first_word sample_config "s3cr3t" eq_refl eq_refl eq_refl)
    as (_ & Hextra & Hdouble).
  split.
  - exact (Hextra "extra words").
  - exact (proj1 (Hdouble "s3cr3t")).
Defined.

(** ** Running the handler *)

Section Running.

Context (E : Externals) (cfg : Config).

Lemma logged_logged (w : World) (l1 l2 : list event) :
  logged (logged w l1) l2 = logged w (l1 ++ l2).
Proof. unfold logged. simpl. rewrite <- app_assoc. reflexivity. Qed.

Lemma download_video_started (unique_id : UUID.t) (request : DownloadRequest) (w : World) :
  download_video E cfg unique_id request w =
    try_finally
      (guarded E cfg request (output_filename unique_id request)
         (output_path unique_id request))
      (cleanup E (output_path unique_id request))
      (started unique_id request w).
Proof. reflexivity. Qed.

(** *** The [finally] block *)

Lemma cleanup_absent (path : string) (w : World) :
  path ∉ files w -> cleanup E path w = (Return tt, w).
Proof.
  intros H. unfold cleanup, bind, os_path_exists.
  rewrite bool_decide_eq_false_2 by exact H. reflexivity.
Qed.

Lemma cleanup_removed (path : string) (w : World) :
  path ∈ files w ->
  os_remove_error E path (files w) = None ->
  cleanup E path w =
    (Return tt,
     {| files := files w ∖ {[ path ]};
        trace := trace w ++ [Remove path;
                             Log INFO ("Archivo temporal '" ++ path ++ "' eliminado.")] |}).
Proof.
  intros H Hrm. unfold cleanup, bind, os_path_exists.
  rewrite bool_decide_eq_true_2 by exact H.
  unfold try_except, os_remove, bind, log, emit. cbn [files trace].
  rewrite Hrm. cbn [files trace]. rewrite <- app_assoc. reflexivity.
Qed.

Lemma cleanup_failed (path msg : string) (w : World) :
  path ∈ files w ->
  os_remove_error E path (files w) = Some msg ->
  cleanup E path w =
    (Return tt,
     logged w [Remove path;
               Log ERROR ("Error al eliminar el archivo temporal '" ++ path
                          ++ "': " ++ msg)]).
Proof.
  intros H Hrm. unfold cleanup, bind, os_path_exists.
  rewrite bool_decide_eq_true_2 by exact H.
  unfold try_except, os_remove, bind, log, emit, logged. cbn [files trace].
  rewrite Hrm. cbn [files trace str_exn]. rewrite <- app_assoc. reflexivity.
Qed.

(** The [finally] block never raises. *)
Lemma cleanup_returns (path : string) (w : World) :
  exists w', cleanup E path w = (Return tt, w').
Proof.
  destruct (decide (path ∈ files w)) as [Hin|Hout].
  - destruct (os_remove_error E path (files w)) as [msg|] eqn:Hrm.
    + rewrite (cleanup_failed _ _ _ Hin Hrm). eauto.
    + rewrite (cleanup_removed _ _ Hin Hrm). eauto.
  - rewrite (cleanup_absent _ _ Hout). eauto.
Qed.

Lemma try_finally_cleanup {A} (body : M A) (path : string) (w : World) :
  try_finally body (cleanup E path) w =
    (fst (body w), snd (cleanup E path (snd (body w)))).
Proof.
  unfold try_finally. destruct (body w) as [r w1]. simpl.
  destruct (cleanup_returns path w1) as [w2 ->]. reflexivity.
Qed.

End Running.

(** ** Paths *)

Lemma append_String (c : ascii) (s t : string) : String c s ++ t = String c (s ++ t).
Proof. reflexivity. Qed.

Lemma hex_digit_not_slash (d : N) : UUID.hex_digit d <> "/"%char.
Proof.
  unfold UUID.hex_digit. generalize (N.to_nat d). intros n.
  do 15 (destruct n as [|n]; [discriminate|]). discriminate.
Qed.

Lemma filename_not_absolute (unique_id : UUID.t) (request : DownloadRequest) :
  Py.startswith (output_filename unique_id request) "/" = false.
Proof.
  unfold output_filename, UUID.str, Py.startswith.
  change (UUID.hex_fixed 8 ?n)
    with (String (UUID.hex_digit ((n / 16 ^ N.of_nat 7) mod 16)) (UUID.hex_fixed 7 n)).
  rewrite !append_String. cbn [String.prefix].
  destruct (ascii_dec "/" _) as [Heq|]; [|reflexivity].
  symmetry in Heq. destruct (hex_digit_not_slash _ Heq).
Qed.

(** The job's file lives directly in the scratch directory. *)
Lemma output_path_in_temp_dir (unique_id : UUID.t) (request : DownloadRequest) :
  output_path unique_id request =
    "temp_downloads/" ++ UUID.str unique_id ++ "." ++ format request.
Proof.
  unfold output_path, Py.os_path_join.
  rewrite filename_not_absolute. reflexivity.
Qed.

(** ** The outcomes of the [try] statement *)

Section Outcomes.

Context (E : Externals) (cfg : Config).
Context (request : DownloadRequest) (filename path : string).

Lemma try_body_download_raises (w : World) (e : exn) (fs : gset string) :
  ydl_download E (ydl_opts request path) [url request] (files w) = (Some e, fs) ->
  try_body E cfg request filename path w =
    (Raise e,
     {| files := fs; trace := trace w ++ [Download (ydl_opts request path) [url request]] |}).
Proof.
  intros H. unfold try_body, bind, run_ydl. rewrite H. reflexivity.
Qed.

Lemma try_body_downloaded (w : World) (fs : gset string) :
  ydl_download E (ydl_opts request path) [url request] (files w) = (None, fs) ->
  try_body E cfg request filename path w =
    if negb (bool_decide (path ∈ fs)) then
      (Raise (HTTPException 500 "El archivo no se generó después de la descarga."),
       downloaded request path fs w)
    else if to_s3 request then
      if negb (storage_configured cfg) then
        (Raise (HTTPException 501 "El servidor no está configurado para subir a S3."),
         downloaded request path fs w)
      else upload E cfg filename path (downloaded request path fs w)
    else
      (Return (LocalFile "Archivo descargado localmente." filename (os_path_abspath E path)),
       downloaded request path fs w).
Proof.
  intros H. unfold try_body, bind, run_ydl, log, emit, os_path_exists, downloaded.
  rewrite H. cbn [files trace]. rewrite <- app_assoc.
  destruct (bool_decide (path ∈ fs)); cbn [negb]; [|reflexivity].
  destruct (to_s3 request); [|reflexivity].
  destruct (storage_configured cfg); reflexivity.
Qed.

(** What the [except] clauses make of the outcome of the [try] body. *)
Lemma guarded_return (w w' : World) (body : Body) :
  try_body E cfg request filename path w = (Return body, w') ->
  guarded E cfg request filename path w = (Return body, w').
Proof. intros H. unfold guarded, try_except. rewrite H. reflexivity. Qed.

Lemma guarded_download_error (w w' : World) (msg : string) :
  try_body E cfg request filename path w = (Raise (DownloadError msg), w') ->
  guarded E cfg request filename path w =
    (Raise (HTTPException 400 ("No se pudo descargar el video. Causa: " ++ msg)),
     logged w' [Log ERROR ("Error de yt-dlp: " ++ msg)]).
Proof. intros H. unfold guarded, try_except. rewrite H. reflexivity. Qed.

Lemma guarded_exception (w w' : World) (e : exn) :
  try_body E cfg request filename path w = (Raise e, w') ->
  is_Exception e = true ->
  (forall msg, e <> DownloadError msg) ->
  guarded E cfg request filename path w =
    (Raise (HTTPException 500 ("Error interno del servidor: " ++ str_exn e)),
     logged w' [Log ERROR ("Un error inesperado ocurrió: " ++ str_exn e)]).
Proof.
  intros H Hexc Hne. unfold guarded, try_except. rewrite H.
  destruct e; try discriminate Hexc; try reflexivity.
  destruct (Hne msg eq_refl).
Qed.

Lemma guarded_non_exception (w w' : World) (msg : string) :
  try_body E cfg request filename path w = (Raise (NonException msg), w') ->
  guarded E cfg request filename path w = (Raise (NonException msg), w').
Proof. intros H. unfold guarded, try_except. rewrite H. reflexivity. Qed.

(** The upload when every S3 call succeeds. *)
Lemma upload_succeeds (w : World) (presigned : string) :
  boto3_client E (AWS_ACCESS_KEY_ID cfg) (AWS_SECRET_ACCESS_KEY cfg) (AWS_REGION cfg) = None ->
  s3_upload_file E path (S3_BUCKET cfg) filename (files w) = None ->
  s3_generate_presigned_url E (S3_BUCKET cfg) filename 3600 = inr presigned ->
  upload E cfg filename path w =
    (Return (FileUrl presigned),
     logged w
       [S3Client (AWS_ACCESS_KEY_ID cfg) (AWS_SECRET_ACCESS_KEY cfg) (AWS_REGION cfg);
        Log INFO ("Subiendo '" ++ filename ++ "' al bucket '" ++ str_opt (S3_BUCKET cfg)
                  ++ "'...");
        UploadFile path (S3_BUCKET cfg) filename;
        Log INFO "Generando URL prefirmada...";
        PresignedUrl (S3_BUCKET cfg) filename 3600]).
Proof.
  intros Hclient Hup Hurl.
  unfold upload, try_except, upload_steps, new_s3_client, upload_file,
    generate_presigned_url, bind, log, emit, ret, logged.
  rewrite Hclient. cbn [files trace ret]. rewrite Hup. cbn [files trace].
  rewrite Hurl. cbn [files trace ret].
  repeat rewrite <- app_assoc. reflexivity.
Qed.

(** What the inner [except] clauses make of the errors of the S3 calls. *)
Lemma upload_credentials_error (w : World) (e : exn) :
  fst (upload_steps E cfg filename path w) = Raise e ->
  (exists msg, e = NoCredentialsError msg \/ e = PartialCredentialsError msg) ->
  fst (upload E cfg filename path w) =
    Raise (HTTPException 500 "Error de configuración de credenciales de AWS.").
Proof.
  intros H [msg [-> | ->]]; unfold upload, try_except;
    destruct (upload_steps E cfg filename path w) as [r w']; simpl in H; subst r;
    reflexivity.
Qed.

Lemma upload_client_error (w : World) (msg : string) :
  fst (upload_steps E cfg filename path w) = Raise (ClientError msg) ->
  fst (upload E cfg filename path w) =
    Raise (HTTPException 500 ("Error al interactuar con S3: " ++ msg)).
Proof.
  intros H. unfold upload, try_except.
  destruct (upload_steps E cfg filename path w) as [r w']; simpl in H; subst r.
  reflexivity.
Qed.

End Outcomes.

(** ** The options handed to yt-dlp *)

Lemma append_assoc (s1 s2 s3 : string) : (s1 ++ s2) ++ s3 = s1 ++ (s2 ++ s3).
Proof.
  induction s1 as [|c s1 IH]; [reflexivity|].
  rewrite !append_String, IH. reflexivity.
Qed.

Lemma free_of_app (sep : ascii) (s1 s2 : string) :
  free_of sep (s1 ++ s2) = free_of sep s1 && free_of sep s2.
Proof.
  induction s1 as [|c s1 IH]; [reflexivity|].
  rewrite append_String. simpl. rewrite IH. apply andb_assoc.
Qed.

(** C2: the options name only two alternatives, the merged best video of
    the requested container with the best audio, and the best stream
    overall.  The middle step of the three-step fallback, the best
    pre-merged stream of the requested container, is not among them.  The
    merge target, the post-processing target and the playlist switch are as
    described. *)
Theorem selector_has_two_steps (request : DownloadRequest) (path : string) :
  free_of "/" (format request) = true ->
  selector_alternatives (ydl_opts request path) =
    [ "bestvideo[ext=" ++ format request ++ "]+bestaudio"; "best" ] /\
  selector_alternatives (ydl_opts request path) <> three_step_selector (format request) /\
  ~ In ("best[ext=" ++ format request ++ "]") (selector_alternatives (ydl_opts request path)) /\
  merge_output_format (ydl_opts request path) = format request /\
  postprocessors (ydl_opts request path) =
    [ {| key := "FFmpegVideoConvertor"; preferedformat := format request |} ] /\
  noplaylist (ydl_opts request path) = true /\
  outtmpl (ydl_opts request path) = path.
Proof.
  intros Hfree.
  assert (selector_alternatives (ydl_opts request path) =
            [ "bestvideo[ext=" ++ format request ++ "]+bestaudio"; "best" ]) as Halt.
  { unfold selector_alternatives, ydl_opts. cbn [ydl_format].
    replace ("bestvideo[ext=" ++ format request ++ "]+bestaudio/best")
      with (("bestvideo[ext=" ++ format request ++ "]+bestaudio") ++ String "/" "best").
    - rewrite split_word_sep; [reflexivity|].
      rewrite !free_of_app, Hfree. reflexivity.
    - rewrite !append_assoc. reflexivity. }
  rewrite Halt. repeat split.
  - unfold three_step_selector. discriminate.
  - intros [H | [H | []]]; rewrite !append_String in H; discriminate H.
Qed.

Lemma selector_has_two_steps_witness :
  selector_alternatives (ydl_opts (sample_request true) "temp_downloads/x.mp4") =
    [ "bestvideo[ext=mp4]+bestaudio"; "best" ] /\
  three_step_selector "mp4" = [ "bestvideo[ext=mp4]+bestaudio"; "best[ext=mp4]"; "best" ].
Proof.
  split; [|reflexivity].
  exact (proj1 (selector_has_two_steps (sample_request true) "temp_downloads/x.mp4" eq_refl)).
Defined.

(** ** Status codes of the handler *)

Section Statuses.

Context (E : Externals) (cfg : Config).
Context (unique_id : UUID.t) (request : DownloadRequest) (w : World).

(** The [finally] block leaves the outcome of the [try] statement alone. *)
Lemma download_video_outcome :
  fst (download_video E cfg unique_id request w) =
    fst (guarded E cfg request (output_filename unique_id request)
           (output_path unique_id request) (started unique_id request w)).
Proof. rewrite download_video_started, try_finally_cleanup. reflexivity. Qed.

Lemma download_video_world :
  snd (download_video E cfg unique_id request w) =
    snd (cleanup E (output_path unique_id request)
           (snd (guarded E cfg request (output_filename unique_id request)
                   (output_path unique_id request) (started unique_id request w)))).
Proof. rewrite download_video_started, try_finally_cleanup. reflexivity. Qed.

Lemma download_error_is_400 (msg : string) (fs : gset string) :
  ydl_download E (ydl_opts request (output_path unique_id request)) [url request] (files w)
    = (Some (DownloadError msg), fs) ->
  fst (download_video E cfg unique_id request w) =
    Raise (HTTPException 400 ("No se pudo descargar el video. Causa: " ++ msg)).
Proof.
  intros H. rewrite download_video_outcome.
  erewrite guarded_download_error; [reflexivity|].
  apply try_body_download_raises. exact H.
Qed.

(** The four ways the [try] body ends once yt-dlp has returned normally. *)
Lemma try_body_missing_file (fs : gset string) :
  ydl_download E (ydl_opts request (output_path unique_id request)) [url request] (files w)
    = (None, fs) ->
  output_path unique_id request ∉ fs ->
  try_body E cfg request (output_filename unique_id request)
    (output_path unique_id request) (started unique_id request w) =
    (Raise (HTTPException 500 "El archivo no se generó después de la descarga."),
     downloaded request (output_path unique_id request) fs (started unique_id request w)).
Proof.
  intros H Hout.
  rewrite (try_body_downloaded E cfg request _ _ (started unique_id request w) fs H).
  rewrite bool_decide_eq_false_2 by exact Hout. reflexivity.
Qed.

Lemma try_body_not_configured (fs : gset string) :
  ydl_download E (ydl_opts request (output_path unique_id request)) [url request] (files w)
    = (None, fs) ->
  output_path unique_id request ∈ fs ->
  to_s3 request = true ->
  storage_configured cfg = false ->
  try_body E cfg request (output_filename unique_id request)
    (output_path unique_id request) (started unique_id request w) =
    (Raise (HTTPException 501 "El servidor no está configurado para subir a S3."),
     downloaded request (output_path unique_id request) fs (started unique_id request w)).
Proof.
  intros H Hin Hs3 Hconf.
  rewrite (try_body_downloaded E cfg request _ _ (started unique_id request w) fs H).
  rewrite bool_decide_eq_true_2 by exact Hin. rewrite Hs3, Hconf. reflexivity.
Qed.

Lemma try_body_configured (fs : gset string) :
  ydl_download E (ydl_opts request (output_path unique_id request)) [url request] (files w)
    = (None, fs) ->
  output_path unique_id request ∈ fs ->
  to_s3 request = true ->
  storage_configured cfg = true ->
  try_body E cfg request (output_filename unique_id request)
    (output_path unique_id request) (started unique_id request w) =
    upload E cfg (output_filename unique_id request) (output_path unique_id request)
      (downloaded request (output_path unique_id request) fs (started unique_id request w)).
Proof.
  intros H Hin Hs3 Hconf.
  rewrite (try_body_downloaded E cfg request _ _ (started unique_id request w) fs H).
  rewrite bool_decide_eq_true_2 by exact Hin. rewrite Hs3, Hconf. reflexivity.
Qed.

Lemma try_body_local (fs : gset string) :
  ydl_download E (ydl_opts request (output_path unique_id request)) [url request] (files w)
    = (None, fs) ->
  output_path unique_id request ∈ fs ->
  to_s3 request = false ->
  try_body E cfg request (output_filename unique_id request)
    (output_path unique_id request) (started unique_id request w) =
    (Return (LocalFile "Archivo descargado localmente." (output_filename unique_id request)
               (os_path_abspath E (output_path unique_id request))),
     downloaded request (output_path unique_id request) fs (started unique_id request w)).
Proof.
  intros H Hin Hs3.
  rewrite (try_body_downloaded E cfg request _ _ (started unique_id request w) fs H).
  rewrite bool_decide_eq_true_2 by exact Hin. rewrite Hs3. reflexivity.
Qed.

(** An [HTTPException] that leaves the [try] body is caught by
    [except Exception] and raised again as a 500. *)
Lemma http_exception_rewrapped (status_code : Z) (detail : string) :
  fst (try_body E cfg request (output_filename unique_id request)
         (output_path unique_id request) (started unique_id request w))
    = Raise (HTTPException status_code detail) ->
  fst (download_video E cfg unique_id request w) =
    Raise (HTTPException 500
             ("Error interno del servidor: " ++ pretty status_code ++ ": " ++ detail)).
Proof.
  intros H. rewrite download_video_outcome.
  destruct (try_body E cfg request (output_filename unique_id request)
              (output_path unique_id request) (started unique_id request w))
    as [r w1] eqn:Hbody.
  simpl in H. subst r.
  rewrite (guarded_exception E cfg request _ _ _ _ _ Hbody eq_refl) by discriminate.
  reflexivity.
Qed.

Lemma missing_file_is_500 (fs : gset string) :
  ydl_download E (ydl_opts request (output_path unique_id request)) [url request] (files w)
    = (None, fs) ->
  output_path unique_id request ∉ fs ->
  fst (download_video E cfg unique_id request w) =
    Raise (HTTPException 500
             "Error interno del servidor: 500: El archivo no se generó después de la descarga.").
Proof.
  intros H Hout.
  rewrite (http_exception_rewrapped 500 "El archivo no se generó después de la descarga.");
    [reflexivity|].
  rewrite (try_body_missing_file fs H Hout). reflexivity.
Qed.

End Statuses.

(** ** Download failures *)

(** C3: when yt-dlp returns normally but no file exists at the job's output
    path the response status is 500; when yt-dlp raises a download error
    the response status is 400. *)
Theorem download_failure_statuses (E : Externals) (cfg : Config)
    (unique_id : UUID.t) (request : DownloadRequest) (w : World) :
  (forall fs,
     ydl_download E (ydl_opts request (output_path unique_id request)) [url request] (files w)
       = (None, fs) ->
     output_path unique_id request ∉ fs ->
     response_status (fst (download_video E cfg unique_id request w)) = Some 500%Z) /\
  (forall msg fs,
     ydl_download E (ydl_opts request (output_path unique_id request)) [url request] (files w)
       = (Some (DownloadError msg), fs) ->
     response_status (fst (download_video E cfg unique_id request w)) = Some 400%Z).
Proof.
  split.
  - intros fs H Hout. rewrite (missing_file_is_500 E cfg unique_id request w fs H Hout).
    reflexivity.
  - intros msg fs H. rewrite (download_error_is_400 E cfg unique_id request w msg fs H).
    reflexivity.
Qed.

Lemma download_failure_statuses_witness :
  response_status
    (fst (download_video (sample_externals None false None None) sample_config
            sample_uuid (sample_request false) empty_world)) = Some 500%Z /\
  response_status
    (fst (download_video
            (sample_externals (Some (DownloadError "ERROR: Video unavailable")) false None None)
            sample_config sample_uuid (sample_request false) empty_world)) = Some 400%Z.
Proof.
  split.
  - apply (proj1 (download_failure_statuses (sample_externals None false None None)
                    sample_config sample_uuid (sample_request false) empty_world) ∅).
    + reflexivity.
    + apply not_elem_of_empty.
  - apply (proj2 (download_failure_statuses
                    (sample_externals (Some (DownloadError "ERROR: Video unavailable"))
                       false None None)
                    sample_config sample_uuid (sample_request false) empty_world)
             "ERROR: Video unavailable" ∅).
    reflexivity.
Defined.

(** ** Storage that is not configured *)

(** C1, counterexample: with [to_s3] set and no storage variables, a
    download that fails is answered 400, not 501. *)
Lemma not_configured_download_error_is_400 :
  to_s3 (sample_request true) = true /\
  storage_configured sample_config_no_storage = false /\
  response_status
    (fst (download_video
            (sample_externals (Some (DownloadError "ERROR: Video unavailable")) false None None)
            sample_config_no_storage sample_uuid (sample_request true) empty_world))
    = Some 400%Z /\
  response_status
    (fst (download_video
            (sample_externals (Some (DownloadError "ERROR: Video unavailable")) false None None)
            sample_config_no_storage sample_uuid (sample_request true) empty_world))
    <> Some 501%Z.
Proof.
  assert (response_status
    (fst (download_video
            (sample_externals (Some (DownloadError "ERROR: Video unavailable")) false None None)
            sample_config_no_storage sample_uuid (sample_request true) empty_world))
    = Some 400%Z) as H.
  { rewrite (download_error_is_400
               (sample_externals (Some (DownloadError "ERROR: Video unavailable"))
                  false None None)
               sample_config_no_storage sample_uuid (sample_request true) empty_world
               "ERROR: Video unavailable" ∅ eq_refl).
    reflexivity. }
  split; [reflexivity|]. split; [reflexivity|]. split; [exact H|].
  rewrite H. discriminate.
Qed.

(** C1, as the code has it: with [to_s3] set and incomplete storage
    credentials, the handler raises its 501 error inside the [try] body
    once yt-dlp has returned normally and the output file exists; when
    yt-dlp raises a download error the response status is 400, and when the
    output file is missing it is 500. *)
Theorem not_configured_raises_501_after_download (E : Externals) (cfg : Config)
    (unique_id : UUID.t) (request : DownloadRequest) (w : World) :
  to_s3 request = true ->
  storage_configured cfg = false ->
  (forall fs,
     ydl_download E (ydl_opts request (output_path unique_id request)) [url request] (files w)
       = (None, fs) ->
     output_path unique_id request ∈ fs ->
     fst (try_body E cfg request (output_filename unique_id request)
            (output_path unique_id request) (started unique_id request w)) =
       Raise (HTTPException 501 "El servidor no está configurado para subir a S3.")) /\
  (forall msg fs,
     ydl_download E (ydl_opts request (output_path unique_id request)) [url request] (files w)
       = (Some (DownloadError msg), fs) ->
     response_status (fst (download_video E cfg unique_id request w)) = Some 400%Z) /\
  (forall fs,
     ydl_download E (ydl_opts request (output_path unique_id request)) [url request] (files w)
       = (None, fs) ->
     output_path unique_id request ∉ fs ->
     response_status (fst (download_video E cfg unique_id request w)) = Some 500%Z).
Proof.
  intros Hs3 Hconf. repeat split.
  - intros fs H Hin.
    rewrite (try_body_not_configured E cfg unique_id request w fs H Hin Hs3 Hconf).
    reflexivity.
  - intros msg fs H. rewrite (download_error_is_400 E cfg unique_id request w msg fs H).
    reflexivity.
  - intros fs H Hout. rewrite (missing_file_is_500 E cfg unique_id request w fs H Hout).
    reflexivity.
Qed.

Lemma not_configured_raises_501_after_download_witness :
  fst (try_body (sample_externals None true None None) sample_config_no_storage
         (sample_request true) (output_filename sample_uuid (sample_request true))
         (output_path sample_uuid (sample_request true))
         (started sample_uuid (sample_request true) empty_world)) =
    Raise (HTTPException 501 "El servidor no está configurado para subir a S3.").
Proof.
  apply (proj1 (not_configured_raises_501_after_download
                  (sample_externals None true None None) sample_config_no_storage
                  sample_uuid (sample_request true) empty_world eq_refl eq_refl)
           (∅ ∪ {[ output_path sample_uuid (sample_request true) ]})).
  - reflexivity.
  - apply elem_of_union_r, elem_of_singleton. reflexivity.
Defined.

(** ** Cleanup *)

(** C6: whatever the [try] statement produced (a body, an HTTP error, any
    other exception), the [finally] block runs and the handler's outcome is
    the one the [try] statement produced.  If the output file exists then,
    [os.remove] is called on it: when the call succeeds the file is gone
    when the handler returns, when it fails the failure is logged at level
    ERROR and nothing else changes.  If the file does not exist, nothing is
    done. *)
Theorem cleanup_on_every_exit (E : Externals) (cfg : Config)
    (unique_id : UUID.t) (request : DownloadRequest) (w : World) :
  let path := output_path unique_id request in
  let before :=
    guarded E cfg request (output_filename unique_id request) path
      (started unique_id request w) in
  let after := download_video E cfg unique_id request w in
  fst after = fst before /\
  (path ∉ files (snd before) -> snd after = snd before) /\
  (path ∈ files (snd before) ->
   match os_remove_error E path (files (snd before)) with
   | None =>
       (path ∉ files (snd after)) /\
       files (snd after) = (files (snd before) ∖ {[ path ]}) /\
       trace (snd after) =
         (trace (snd before)
            ++ [Remove path; Log INFO ("Archivo temporal '" ++ path ++ "' eliminado.")])%list
   | Some msg =>
       files (snd after) = files (snd before) /\
       trace (snd after) =
         (trace (snd before)
            ++ [Remove path;
                Log ERROR ("Error al eliminar el archivo temporal '" ++ path ++ "': "
                           ++ msg)])%list
   end).
Proof.
  intros path before after. subst after.
  rewrite download_video_outcome, download_video_world.
  fold path. fold before. split; [reflexivity|]. split.
  - intros Hout. rewrite (cleanup_absent E path _ Hout). reflexivity.
  - intros Hin. destruct (os_remove_error E path (files (snd before))) as [msg|] eqn:Hrm.
    + rewrite (cleanup_failed E path msg _ Hin Hrm). split; reflexivity.
    + rewrite (cleanup_removed E path _ Hin Hrm). cbn [snd files trace].
      split; [|split; reflexivity].
      intros [_ Hne]%elem_of_difference. apply Hne, elem_of_singleton. reflexivity.
Qed.

Lemma cleanup_on_every_exit_witness :
  output_path sample_uuid (sample_request false)
    ∉ files (snd (download_video (sample_externals None true None None) sample_config
                    sample_uuid (sample_request false) empty_world)).
Proof.
  pose proof (cleanup_on_every_exit (sample_externals None true None None) sample_config
                sample_uuid (sample_request false) empty_world) as H.
  cbv zeta in H. destruct H as (_ & _ & H).
  refine (proj1 (H _)).
  apply (bool_decide_unpack _). vm_compute. exact I.
Defined.

(** ** Successful downloads *)

(** C7: after a successful download with [to_s3] false the body carries the
    file name ["<uuid>.<format>"] and the absolute form of the output path,
    computed before the [finally] block runs.  The handler then calls
    [os.remove] on the file, which is gone on return when that call
    succeeds; the body is the same whether it succeeds or fails. *)
Theorem local_success (E : Externals) (cfg : Config)
    (unique_id : UUID.t) (request : DownloadRequest) (w : World) (fs : gset string) :
  to_s3 request = false ->
  ydl_download E (ydl_opts request (output_path unique_id request)) [url request] (files w)
    = (None, fs) ->
  output_path unique_id request ∈ fs ->
  let path := output_path unique_id request in
  let after := download_video E cfg unique_id request w in
  fst after =
    Return (LocalFile "Archivo descargado localmente."
              (UUID.str unique_id ++ "." ++ format request)
              (os_path_abspath E
                 ("temp_downloads/" ++ UUID.str unique_id ++ "." ++ format request))) /\
  response_status (fst after) = Some 200%Z /\
  (exists lvl msg,
     trace (snd after) =
       (trace w ++ [Log INFO ("Iniciando descarga para URL: " ++ url request ++ " con ID: "
                              ++ UUID.str unique_id);
                    Download (ydl_opts request path) [url request];
                    Log INFO ("Descarga completada. Archivo guardado en: " ++ path);
                    Remove path;
                    Log lvl msg])%list) /\
  (os_remove_error E path fs = None -> path ∉ files (snd after)).
Proof.
  intros Hs3 Hdl Hin path after.
  pose proof (try_body_local E cfg unique_id request w fs Hdl Hin Hs3) as Hbody.
  pose proof (guarded_return E cfg request _ _ _ _ _ Hbody) as Hguard.
  pose proof (cleanup_on_every_exit E cfg unique_id request w) as Hclean.
  cbv zeta in Hclean. rewrite Hguard in Hclean. cbn [fst snd] in Hclean.
  fold path in Hclean. fold after in Hclean.
  destruct Hclean as (Hfst & _ & Hpresent).
  specialize (Hpresent Hin). cbn [downloaded files trace started] in Hpresent.
  split; [|split; [|split]].
  - rewrite Hfst. unfold path, output_filename. rewrite output_path_in_temp_dir. reflexivity.
  - rewrite Hfst. reflexivity.
  - destruct (os_remove_error E path fs) as [msg|].
    + destruct Hpresent as (_ & ->). rewrite <- !app_assoc. eauto.
    + destruct Hpresent as (_ & _ & ->). rewrite <- !app_assoc. eauto.
  - intros Hrm. rewrite Hrm in Hpresent. exact (proj1 Hpresent).
Qed.

Lemma local_success_witness :
  fst (download_video (sample_externals None true None None) sample_config
         sample_uuid (sample_request false) empty_world) =
    Return (LocalFile "Archivo descargado localmente."
              "3f2b8c1e-9d4a-4f6a-b7c5-d1e2f3a4b5c6.mp4"
              "/srv/api/temp_downloads/3f2b8c1e-9d4a-4f6a-b7c5-d1e2f3a4b5c6.mp4").
Proof.
  refine (proj1 (local_success (sample_externals None true None None) sample_config
                   sample_uuid (sample_request false) empty_world
                   (∅ ∪ {[ output_path sample_uuid (sample_request false) ]})
                   eq_refl eq_refl _)).
  apply elem_of_union_r, elem_of_singleton. reflexivity.
Defined.

(** C5: with [to_s3] set, complete storage credentials, a successful
    download and S3 calls that succeed, the handler returns a body holding
    the presigned URL, status 200.  The file is uploaded under the key
    ["<uuid>.<format>"], the job's file name, and the URL is generated for
    that same key with [ExpiresIn=3600]. *)
Theorem upload_success (E : Externals) (cfg : Config)
    (unique_id : UUID.t) (request : DownloadRequest) (w : World)
    (fs : gset string) (presigned : string) :
  let filename := UUID.str unique_id ++ "." ++ format request in
  let path := output_path unique_id request in
  to_s3 request = true ->
  storage_configured cfg = true ->
  ydl_download E (ydl_opts request path) [url request] (files w) = (None, fs) ->
  path ∈ fs ->
  boto3_client E (AWS_ACCESS_KEY_ID cfg) (AWS_SECRET_ACCESS_KEY cfg) (AWS_REGION cfg) = None ->
  s3_upload_file E path (S3_BUCKET cfg) filename fs = None ->
  s3_generate_presigned_url E (S3_BUCKET cfg) filename 3600 = inr presigned ->
  let after := download_video E cfg unique_id request w in
  fst after = Return (FileUrl presigned) /\
  response_status (fst after) = Some 200%Z /\
  exists lvl msg,
    trace (snd after) =
      (trace w ++ [Log INFO ("Iniciando descarga para URL: " ++ url request ++ " con ID: "
                             ++ UUID.str unique_id);
                   Download (ydl_opts request path) [url request];
                   Log INFO ("Descarga completada. Archivo guardado en: " ++ path);
                   S3Client (AWS_ACCESS_KEY_ID cfg) (AWS_SECRET_ACCESS_KEY cfg)
                     (AWS_REGION cfg);
                   Log INFO ("Subiendo '" ++ filename ++ "' al bucket '"
                             ++ str_opt (S3_BUCKET cfg) ++ "'...");
                   UploadFile path (S3_BUCKET cfg) filename;
                   Log INFO "Generando URL prefirmada...";
                   PresignedUrl (S3_BUCKET cfg) filename 3600;
                   Remove path;
                   Log lvl msg])%list.
Proof.
  intros filename path Hs3 Hconf Hdl Hin Hclient Hup Hurl after.
  pose proof
    (eq_trans
       (try_body_configured E cfg unique_id request w fs Hdl Hin Hs3 Hconf)
       (upload_succeeds E cfg (output_filename unique_id request) path
          (downloaded request path fs (started unique_id request w)) presigned
          Hclient Hup Hurl)) as Hbody.
  pose proof (guarded_return E cfg request _ _ _ _ _ Hbody) as Hguard.
  pose proof (cleanup_on_every_exit E cfg unique_id request w) as Hclean.
  cbv zeta in Hclean. rewrite Hguard in Hclean. cbn [fst snd] in Hclean.
  fold path in Hclean. fold after in Hclean.
  destruct Hclean as (Hfst & _ & Hpresent).
  specialize (Hpresent Hin). cbn [logged downloaded files trace started] in Hpresent.
  split; [exact Hfst|]. split; [rewrite Hfst; reflexivity|].
  destruct (os_remove_error E path fs) as [msg|].
  - destruct Hpresent as (_ & ->). rewrite <- !app_assoc. eauto.
  - destruct Hpresent as (_ & _ & ->). rewrite <- !app_assoc. eauto.
Qed.

Lemma upload_success_witness :
  fst (download_video (sample_externals None true None None) sample_config
         sample_uuid (sample_request true) empty_world) =
    Return (FileUrl ("https://videos.s3.amazonaws.com/"
                     ++ "3f2b8c1e-9d4a-4f6a-b7c5-d1e2f3a4b5c6.mp4?X-Amz-Expires=3600")).
Proof.
  refine (proj1 (upload_success (sample_externals None true None None) sample_config
                   sample_uuid (sample_request true) empty_world
                   (∅ ∪ {[ output_path sample_uuid (sample_request true) ]})
                   _ eq_refl eq_refl eq_refl _ eq_refl eq_refl eq_refl)).
  apply elem_of_union_r, elem_of_singleton. reflexivity.
Defined.

(** ** Errors raised inside the [try] body *)

(** C9: an [HTTPException] raised inside the [try] body is caught by the
    [except Exception] clause; the error delivered has status 500 and the
    detail ["Error interno del servidor: "] followed by the text of the
    original error, its status and detail.  This holds for the 501 of the
    storage check, the 500 of the missing output file, and the 500s the
    upload raises for credential and client errors. *)
Theorem http_errors_become_500 (E : Externals) (cfg : Config)
    (unique_id : UUID.t) (request : DownloadRequest) (w : World) :
  let filename := output_filename unique_id request in
  let path := output_path unique_id request in
  let after := download_video E cfg unique_id request w in
  (forall status_code detail,
     fst (try_body E cfg request filename path (started unique_id request w))
       = Raise (HTTPException status_code detail) ->
     fst after =
       Raise (HTTPException 500
                ("Error interno del servidor: " ++ pretty status_code ++ ": " ++ detail))) /\
  (forall fs,
     ydl_download E (ydl_opts request path) [url request] (files w) = (None, fs) ->
     (path ∉ fs ->
      fst after =
        Raise (HTTPException 500
                 "Error interno del servidor: 500: El archivo no se generó después de la descarga.")) /\
     (path ∈ fs -> to_s3 request = true -> storage_configured cfg = false ->
      fst after =
        Raise (HTTPException 500
                 "Error interno del servidor: 501: El servidor no está configurado para subir a S3.")) /\
     (path ∈ fs -> to_s3 request = true -> storage_configured cfg = true ->
      forall e,
        fst (upload_steps E cfg filename path
               (downloaded request path fs (started unique_id request w))) = Raise e ->
        ((exists msg, e = NoCredentialsError msg \/ e = PartialCredentialsError msg) ->
         fst after =
           Raise (HTTPException 500
                    "Error interno del servidor: 500: Error de configuración de credenciales de AWS.")) /\
        (forall msg, e = ClientError msg ->
         fst after =
           Raise (HTTPException 500
                    ("Error interno del servidor: 500: Error al interactuar con S3: " ++ msg))))).
Proof.
  intros filename path after.
  split; [exact (http_exception_rewrapped E cfg unique_id request w)|].
  intros fs Hdl. split; [|split].
  - exact (missing_file_is_500 E cfg unique_id request w fs Hdl).
  - intros Hin Hs3 Hconf.
    apply (http_exception_rewrapped E cfg unique_id request w 501
             "El servidor no está configurado para subir a S3.").
    rewrite (try_body_not_configured E cfg unique_id request w fs Hdl Hin Hs3 Hconf).
    reflexivity.
  - intros Hin Hs3 Hconf e Hsteps.
    pose proof (try_body_configured E cfg unique_id request w fs Hdl Hin Hs3 Hconf) as Hbody.
    split.
    + intros Hcred.
      apply (http_exception_rewrapped E cfg unique_id request w 500
               "Error de configuración de credenciales de AWS.").
      rewrite Hbody. exact (upload_credentials_error E cfg filename path _ e Hsteps Hcred).
    + intros msg ->.
      apply (http_exception_rewrapped E cfg unique_id request w 500
               ("Error al interactuar con S3: " ++ msg)).
      rewrite Hbody. exact (upload_client_error E cfg filename path _ msg Hsteps).
Qed.

Lemma http_errors_become_500_witness :
  fst (download_video (sample_externals None true None None) sample_config_no_storage
         sample_uuid (sample_request true) empty_world) =
    Raise (HTTPException 500
             "Error interno del servidor: 501: El servidor no está configurado para subir a S3.").
Proof.
  pose proof (http_errors_become_500 (sample_externals None true None None)
                sample_config_no_storage sample_uuid (sample_request true) empty_world) as H.
  cbv zeta in H. destruct H as (_ & H).
  destruct (H (∅ ∪ {[ output_path sample_uuid (sample_request true) ]}) eq_refl)
    as (_ & Hnot_configured & _).
  apply Hnot_configured; [|reflexivity|reflexivity].
  apply elem_of_union_r, elem_of_singleton. reflexivity.
Defined.

(** ** Bodies that fail validation *)

(** C8, counterexample: an authenticated request whose [url] is not a URL
    is answered 422, not 400. *)
Lemma invalid_url_is_not_400 :
  parse_http_url (sample_externals None true None None) "not a url" = None /\
  response_status
    (fst (post_download (sample_externals None true None None) sample_config
            (Some "Bearer s3cr3t")
            {| raw_url := Some "not a url"; raw_format := None; raw_to_s3 := None |}
            sample_uuid empty_world)) = Some 422%Z /\
  response_status
    (fst (post_download (sample_externals None true None None) sample_config
            (Some "Bearer s3cr3t")
            {| raw_url := Some "not a url"; raw_format := None; raw_to_s3 := None |}
            sample_uuid empty_world)) <> Some 400%Z.
Proof.
  split; [reflexivity|]. split; [reflexivity|]. discriminate.
Qed.

(** C8, as the code has it: a request that passes authentication and whose
    body has no [url], or a [url] that is not a valid URL, is answered with
    the validation status 422; the handler does not run, so the world is
    unchanged and yt-dlp is never called. *)
Theorem invalid_body_is_422 (E : Externals) (cfg : Config) (value token : string)
    (payload : Payload) (unique_id : UUID.t) (w : World) :
  get_api_key cfg value = Return token ->
  (raw_url payload = None \/
   exists u, raw_url payload = Some u /\ parse_http_url E u = None) ->
  response_status (fst (post_download E cfg (Some value) payload unique_id w)) = Some 422%Z /\
  snd (post_download E cfg (Some value) payload unique_id w) = w /\
  download_calls (snd (post_download E cfg (Some value) payload unique_id w)) =
    download_calls w.
Proof.
  intros Hauth Hbad.
  assert (String.eqb value "" = false) as Hvalue.
  { destruct value; [discriminate Hauth | reflexivity]. }
  assert (exists msg,
             post_download E cfg (Some value) payload unique_id w =
               (Raise (RequestValidationError msg), w)) as [msg ->].
  { unfold post_download, bind, lift, api_key_header. rewrite Hvalue, Hauth.
    unfold validate. destruct Hbad as [-> | (u & -> & ->)]; eauto. }
  auto.
Qed.

Lemma invalid_body_is_422_witness :
  response_status
    (fst (post_download (sample_externals None true None None) sample_config
            (Some "Bearer s3cr3t")
            {| raw_url := None; raw_format := Some "mkv"; raw_to_s3 := None |}
            sample_uuid empty_world)) = Some 422%Z.
Proof.
  apply (invalid_body_is_422 (sample_externals None true None None) sample_config
           "Bearer s3cr3t" "s3cr3t"
           {| raw_url := None; raw_format := Some "mkv"; raw_to_s3 := None |}
           sample_uuid empty_world eq_refl).
  left. reflexivity.
Defined.

(** ** Sample runs *)

(** The example of the specification: an authenticated request for a local
    download of a reachable video. *)
Example run_local_download :
  let run := post_download (sample_externals None true None None) sample_config
               (Some "Bearer s3cr3t") sample_payload sample_uuid empty_world in
  fst run =
    Return (LocalFile "Archivo descargado localmente."
              "3f2b8c1e-9d4a-4f6a-b7c5-d1e2f3a4b5c6.mp4"
              "/srv/api/temp_downloads/3f2b8c1e-9d4a-4f6a-b7c5-d1e2f3a4b5c6.mp4") /\
  List.length (download_calls (snd run)) = 1 /\
  bool_decide ("temp_downloads/3f2b8c1e-9d4a-4f6a-b7c5-d1e2f3a4b5c6.mp4" ∈ files (snd run))
    = false.
Proof. vm_compute. repeat split. Qed.

(** The same request when [os.remove] fails: same answer, the file stays
    and the failure is the last line logged. *)
Example run_local_download_remove_fails :
  let run := post_download (sample_externals None true None (Some "Permission denied"))
               sample_config (Some "Bearer s3cr3t") sample_payload sample_uuid empty_world in
  fst run =
    Return (LocalFile "Archivo descargado localmente."
              "3f2b8c1e-9d4a-4f6a-b7c5-d1e2f3a4b5c6.mp4"
              "/srv/api/temp_downloads/3f2b8c1e-9d4a-4f6a-b7c5-d1e2f3a4b5c6.mp4") /\
  bool_decide ("temp_downloads/3f2b8c1e-9d4a-4f6a-b7c5-d1e2f3a4b5c6.mp4" ∈ files (snd run))
    = true /\
  last (trace (snd run)) =
    Some (Log ERROR ("Error al eliminar el archivo temporal "
                     ++ "'temp_downloads/3f2b8c1e-9d4a-4f6a-b7c5-d1e2f3a4b5c6.mp4': "
                     ++ "Permission denied")).
Proof. vm_compute. repeat split. Qed.

(** An upload that the storage service refuses. *)
Example run_upload_client_error :
  fst (download_video
         (sample_externals None true (Some (ClientError "AccessDenied")) None)
         sample_config sample_uuid (sample_request true) empty_world) =
    Raise (HTTPException 500
             "Error interno del servidor: 500: Error al interactuar con S3: AccessDenied").
Proof. vm_compute. reflexivity. Qed.

(** A header without the space after the scheme. *)
Example run_malformed_header :
  get_api_key sample_config "Bearer" =
    Raise (HTTPException 401
             "Formato de 'Authorization' header inválido. Usar 'Bearer <clave>'.").
Proof. reflexivity. Qed.

(** An exception that [except Exception] does not catch still goes through
    the [finally] block. *)
Example run_interrupted :
  let run := download_video
               (sample_externals (Some (NonException "KeyboardInterrupt")) true None None)
               sample_config sample_uuid (sample_request true) empty_world in
  fst run = Raise (NonException "KeyboardInterrupt") /\
  response_status (fst run) = None /\
  bool_decide (output_path sample_uuid (sample_request true) ∈ files (snd run)) = false.
Proof. vm_compute. repeat split. Qed.

(** * Further properties *)

(** ** Job identifiers and scratch paths *)

Lemma hex_digit_inj (a b : N) :
  (a < 16)%N -> (b < 16)%N -> UUID.hex_digit a = UUID.hex_digit b -> a = b.
Proof.
  intros Ha Hb H. apply N2Nat.inj.
  assert (N.to_nat a < 16)%nat as Ha' by lia.
  assert (N.to_nat b < 16)%nat as Hb' by lia.
  unfold UUID.hex_digit in H.
  revert H Ha' Hb'. generalize (N.to_nat a) (N.to_nat b). intros x y H Hx Hy.
  do 16 (destruct x as [|x];
         [do 16 (destruct y as [|y]; [first [reflexivity | discriminate H]|]); lia|]).
  lia.
Qed.

Lemma hex_fixed_length (width : nat) (n : N) :
  String.length (UUID.hex_fixed width n) = width.
Proof. induction width as [|w IH]; simpl; [reflexivity|]. rewrite IH. reflexivity. Qed.

(** The digits printed determine the number modulo [16 ^ width]. *)
Lemma hex_fixed_inj (width : nat) (n m : N) :
  UUID.hex_fixed width n = UUID.hex_fixed width m ->
  (n mod 16 ^ N.of_nat width = m mod 16 ^ N.of_nat width)%N.
Proof.
  induction width as [|w IH]; intros H.
  - simpl. rewrite !N.mod_1_r. reflexivity.
  - simpl in H. injection H as Hd Hrest.
    apply hex_digit_inj in Hd; try (apply N.mod_lt; discriminate).
    specialize (IH Hrest).
    rewrite Nat2N.inj_succ, N.pow_succ_r'.
    rewrite (N.mul_comm 16), !N.Div0.mod_mul_r, IH, Hd. reflexivity.
Qed.

Lemma append_inj_length (a b x y : string) :
  String.length a = String.length b -> a ++ x = b ++ y -> a = b /\ x = y.
Proof.
  revert b. induction a as [|c a IH]; intros [|d b] Hlen H; try discriminate Hlen.
  - split; [reflexivity | exact H].
  - rewrite !append_String in H. injection H as -> H.
    injection Hlen as Hlen. destruct (IH b Hlen H) as [-> ->]. split; reflexivity.
Qed.

Lemma append_inj_l (s x y : string) : s ++ x = s ++ y -> x = y.
Proof.
  induction s as [|c s IH]; intros H; [exact H|].
  rewrite !append_String in H. injection H as H. exact (IH H).
Qed.

Lemma low_bits (k1 k2 n m : N) :
  (n mod 2 ^ k1 = m mod 2 ^ k1)%N ->
  ((n / 2 ^ k1) mod 2 ^ k2 = (m / 2 ^ k1) mod 2 ^ k2)%N ->
  (n mod 2 ^ (k1 + k2) = m mod 2 ^ (k1 + k2))%N.
Proof.
  intros H1 H2. rewrite N.pow_add_r, !N.Div0.mod_mul_r, H1, H2. reflexivity.
Qed.

(** The five printed groups cover all 128 bits. *)
Lemma uuid_groups (n m : N) :
  (n < 2 ^ 128)%N -> (m < 2 ^ 128)%N ->
  ((n / 2 ^ 96) mod 2 ^ 32 = (m / 2 ^ 96) mod 2 ^ 32)%N ->
  ((n / 2 ^ 80) mod 2 ^ 16 = (m / 2 ^ 80) mod 2 ^ 16)%N ->
  ((n / 2 ^ 64) mod 2 ^ 16 = (m / 2 ^ 64) mod 2 ^ 16)%N ->
  ((n / 2 ^ 48) mod 2 ^ 16 = (m / 2 ^ 48) mod 2 ^ 16)%N ->
  (n mod 2 ^ 48 = m mod 2 ^ 48)%N ->
  n = m.
Proof.
  intros Hn Hm H1 H2 H3 H4 H5.
  pose proof (low_bits 48 16 n m H5 H4) as L64.
  pose proof (low_bits (48 + 16) 16 n m L64 H3) as L80.
  pose proof (low_bits (48 + 16 + 16) 16 n m L80 H2) as L96.
  pose proof (low_bits (48 + 16 + 16 + 16) 32 n m L96 H1) as L128.
  change (48 + 16 + 16 + 16 + 32)%N with 128%N in L128.
  rewrite (N.mod_small n), (N.mod_small m) in L128 by assumption.
  exact L128.
Qed.

Lemma uuid_str_inj (u1 u2 : UUID.t) :
  (UUID.int u1 < 2 ^ 128)%N -> (UUID.int u2 < 2 ^ 128)%N ->
  UUID.str u1 = UUID.str u2 -> u1 = u2.
Proof.
  destruct u1 as [n], u2 as [m]. cbn [UUID.int]. intros H1 H2 H. f_equal.
  unfold UUID.str in H. cbn [UUID.int] in H.
  apply append_inj_length in H; [|rewrite !hex_fixed_length; reflexivity].
  destruct H as [G1 H]. apply (append_inj_l "-") in H.
  apply append_inj_length in H; [|rewrite !hex_fixed_length; reflexivity].
  destruct H as [G2 H]. apply (append_inj_l "-") in H.
  apply append_inj_length in H; [|rewrite !hex_fixed_length; reflexivity].
  destruct H as [G3 H]. apply (append_inj_l "-") in H.
  apply append_inj_length in H; [|rewrite !hex_fixed_length; reflexivity].
  destruct H as [G4 G5]. apply (append_inj_l "-") in G5.
  apply hex_fixed_inj in G1, G2, G3, G4, G5.
  exact (uuid_groups n m H1 H2 G1 G2 G3 G4 G5).
Qed.

Lemma uuid_str_length (u : UUID.t) : String.length (UUID.str u) = 36%nat.
Proof. reflexivity. Qed.

(** X1: two jobs write to the same scratch path only if they have the same
    identifier and the same format: for 128-bit identifiers the output path
    determines both. *)
Theorem output_path_inj (u1 u2 : UUID.t) (r1 r2 : DownloadRequest) :
  (UUID.int u1 < 2 ^ 128)%N -> (UUID.int u2 < 2 ^ 128)%N ->
  output_path u1 r1 = output_path u2 r2 ->
  u1 = u2 /\ format r1 = format r2.
Proof.
  intros H1 H2 H. rewrite !output_path_in_temp_dir in H.
  apply (append_inj_l "temp_downloads/") in H.
  apply append_inj_length in H; [|rewrite !uuid_str_length; reflexivity].
  destruct H as [Hstr Hfmt]. apply (append_inj_l ".") in Hfmt.
  split; [exact (uuid_str_inj u1 u2 H1 H2 Hstr) | exact Hfmt].
Qed.

Lemma output_path_inj_witness :
  output_path sample_uuid (sample_request true) =
    output_path sample_uuid (sample_request false) /\
  format (sample_request true) = format (sample_request false).
Proof.
  split; [reflexivity|].
  exact (proj2 (output_path_inj sample_uuid sample_uuid
                  (sample_request true) (sample_request false)
                  eq_refl eq_refl eq_refl)).
Defined.

(** X2: the output path is always the scratch directory, a slash and the
    file name: [os.path.join] never drops [TEMP_DIR], because a file name
    begins with a hexadecimal digit of the identifier, never with a slash,
    whatever the requested format is. *)
Theorem output_path_shape (unique_id : UUID.t) (request : DownloadRequest) :
  output_path unique_id request = TEMP_DIR ++ "/" ++ output_filename unique_id request /\
  Py.startswith (output_path unique_id request) "temp_downloads/" = true /\
  String.length (output_filename unique_id request) =
    (37 + String.length (format request))%nat.
Proof.
  split; [|split].
  - rewrite output_path_in_temp_dir. reflexivity.
  - rewrite output_path_in_temp_dir. apply startswith_app_refl.
  - unfold output_filename. reflexivity.
Qed.

(** ** More on authentication *)

(** The first word of a split is free of the separator and is followed, in
    the string, by nothing or by a separator. *)
Lemma split_head (sep : ascii) (s : string) :
  exists w ws,
    Py.split sep s = w :: ws /\
    free_of sep w = true /\
    (s = w \/ exists rest, s = w ++ String sep rest).
Proof.
  induction s as [|c s IH].
  - exists "", []. repeat split. left. reflexivity.
  - simpl. destruct (Ascii.eqb_spec c sep) as [->|Hne].
    + exists "", (Py.split sep s). repeat split. right. exists s. reflexivity.
    + destruct IH as (w & ws & -> & Hfree & Hshape).
      exists (String c w), ws. split; [reflexivity|]. split.
      * simpl. rewrite Hfree. apply Ascii.eqb_neq in Hne. rewrite Hne. reflexivity.
      * destruct Hshape as [-> | [rest ->]]; [left; reflexivity|].
        right. exists rest. reflexivity.
Qed.

(** X3: [get_api_key] has three outcomes only: the configured key is
    returned, or one of the two 401 errors is raised.  The index [[1]] into
    the split header is never out of range. *)
Theorem get_api_key_outcomes (cfg : Config) (value : string) :
  (exists token, get_api_key cfg value = Return token /\ API_KEY cfg = Some token) \/
  get_api_key cfg value =
    Raise (HTTPException 401
             "Formato de 'Authorization' header inválido. Usar 'Bearer <clave>'.") \/
  get_api_key cfg value = Raise (HTTPException 401 "API Key inválido o expirado.").
Proof.
  destruct (Py.startswith value "Bearer ") eqn:Hp.
  - destruct (startswith_app _ _ Hp) as [rest ->].
    rewrite get_api_key_Bearer. cbv zeta.
    destruct (API_KEY cfg) as [k|] eqn:Hk; simpl; [|auto].
    destruct (String.eqb_spec (hd "" (Py.split " " rest)) k) as [->|]; simpl; eauto.
  - right. left. unfold get_api_key. rewrite Hp. reflexivity.
Qed.

(** X4: for a key without spaces, the headers that authenticate are exactly
    ["Bearer <key>"] and ["Bearer <key> "] followed by anything. *)
Theorem accepted_headers (cfg : Config) (k value : string) :
  API_KEY cfg = Some k ->
  free_of " " k = true ->
  get_api_key cfg value = Return k <->
  (value = "Bearer " ++ k \/ exists extra, value = "Bearer " ++ k ++ " " ++ extra).
Proof.
  intros Hkey Hfree. split.
  - intros Hret.
    destruct (Py.startswith value "Bearer ") eqn:Hp.
    + destruct (startswith_app _ _ Hp) as [rest ->].
      rewrite get_api_key_Bearer, Hkey in Hret. cbv zeta in Hret. simpl in Hret.
      destruct (split_head " " rest) as (w & ws & Hsplit & _ & Hshape).
      rewrite Hsplit in Hret. simpl in Hret.
      destruct (String.eqb_spec w k) as [->|]; [|discriminate Hret].
      destruct Hshape as [-> | [extra ->]]; [left; reflexivity|].
      right. exists extra. reflexivity.
    + unfold get_api_key in Hret. rewrite Hp in Hret. discriminate Hret.
  - intros [-> | [extra ->]]; rewrite get_api_key_Bearer, Hkey; cbv zeta.
    + rewrite split_word by exact Hfree. simpl. rewrite String.eqb_refl. reflexivity.
    + change (k ++ " " ++ extra) with (k ++ String " " extra).
      rewrite split_word_sep by exact Hfree. simpl. rewrite String.eqb_refl. reflexivity.
Qed.

Lemma accepted_headers_witness :
  get_api_key sample_config "Bearer s3cr3t" = Return "s3cr3t".
Proof.
  apply (proj2 (accepted_headers sample_config "s3cr3t" "Bearer s3cr3t" eq_refl eq_refl)).
  left. reflexivity.
Defined.

(** X5: a key that contains a space can never be presented: every header
    is answered 401, because the token compared is a single word. *)
Theorem key_with_space_locks_out (cfg : Config) (k value : string) :
  API_KEY cfg = Some k ->
  free_of " " k = false ->
  response_status (get_api_key cfg value) = Some 401%Z.
Proof.
  intros Hkey Hspace.
  destruct (get_api_key_total cfg value) as [(token & Hret & Htok) | [detail ->]];
    [|reflexivity].
  exfalso. rewrite Hkey in Htok. injection Htok as <-.
  destruct (Py.startswith value "Bearer ") eqn:Hp.
  - destruct (startswith_app _ _ Hp) as [rest ->].
    rewrite get_api_key_Bearer, Hkey in Hret. cbv zeta in Hret.
    destruct (split_head " " rest) as (w & ws & Hsplit & Hfree & _).
    rewrite Hsplit in Hret. simpl in Hret.
    destruct (String.eqb_spec w k) as [->|]; [|discriminate Hret].
    rewrite Hfree in Hspace. discriminate Hspace.
  - unfold get_api_key in Hret. rewrite Hp in Hret. discriminate Hret.
Qed.

Lemma key_with_space_locks_out_witness :
  response_status
    (get_api_key {| API_KEY := Some "two words"; S3_BUCKET := None;
                    AWS_ACCESS_KEY_ID := None; AWS_SECRET_ACCESS_KEY := None;
                    AWS_REGION := None |} "Bearer two words") = Some 401%Z.
Proof.
  apply (key_with_space_locks_out _ "two words" "Bearer two words"); reflexivity.
Defined.

(** ** Start-up *)

(** X6: start-up fails with [ValueError] exactly when [API_KEY] is unset
    or empty and then logs nothing.  Otherwise it returns the five
    variables as read, with a non-empty key, touches no file, and logs the
    storage warning exactly when storage is not configured. *)
Theorem module_init_outcomes (getenv : string -> option string) (w : World) :
  (Py.truthy (getenv "API_KEY") = false ->
   module_init getenv w =
     (Raise (OtherException "La variable de entorno API_KEY no está configurada."), w)) /\
  (Py.truthy (getenv "API_KEY") = true ->
   fst (module_init getenv w) = Return (read_config getenv) /\
   startup_ok (read_config getenv) = true /\
   files (snd (module_init getenv w)) = files w /\
   trace (snd (module_init getenv w)) =
     (if storage_configured (read_config getenv) then trace w
      else trace w ++ [Log WARNING
             "Faltan una o más variables de entorno de AWS. La subida a S3 no funcionará."])%list).
Proof.
  unfold module_init, bind, ret, raise, log, emit, storage_configured.
  cbn [API_KEY S3_BUCKET AWS_ACCESS_KEY_ID AWS_SECRET_ACCESS_KEY AWS_REGION read_config].
  split; intros H; rewrite H; cbn [negb]; [reflexivity|].
  split; [|split; [exact H|]]; destruct (Py.all _); cbn [negb fst snd files trace];
    try reflexivity; (split; [reflexivity|]); rewrite ?app_nil_r; reflexivity.
Qed.

Lemma module_init_outcomes_witness :
  fst (module_init sample_environ empty_world) = Return sample_config /\
  trace (snd (module_init sample_environ_key_only empty_world)) =
    [Log WARNING
       "Faltan una o más variables de entorno de AWS. La subida a S3 no funcionará."] /\
  fst (module_init (fun _ => None) empty_world) =
    Raise (OtherException "La variable de entorno API_KEY no está configurada.").
Proof.
  split; [|split].
  - exact (proj1 (proj2 (module_init_outcomes sample_environ empty_world) eq_refl)).
  - exact (proj2 (proj2 (proj2 (proj2 (module_init_outcomes sample_environ_key_only
                                         empty_world) eq_refl)))).
  - exact (f_equal fst (proj1 (module_init_outcomes (fun _ => None) empty_world) eq_refl)).
Defined.

(** X7: storage counts as configured exactly when the four variables are
    all set to non-empty strings; a variable set to the empty string
    disables uploads like a missing one. *)
Theorem storage_configured_iff (cfg : Config) :
  storage_configured cfg = true <->
  exists bucket access secret region,
    S3_BUCKET cfg = Some bucket /\ AWS_ACCESS_KEY_ID cfg = Some access /\
    AWS_SECRET_ACCESS_KEY cfg = Some secret /\ AWS_REGION cfg = Some region /\
    bucket <> "" /\ access <> "" /\ secret <> "" /\ region <> "".
Proof.
  unfold storage_configured, Py.all. cbn [forallb]. rewrite !andb_true_iff.
  assert (forall o, Py.truthy o = true <-> exists s, o = Some s /\ s <> "") as Htruthy.
  { intros [s|]; simpl.
    - rewrite negb_true_iff. split.
      + intros H. exists s. split; [reflexivity|]. intros ->. discriminate H.
      + intros (s' & [= <-] & Hne). destruct s; [contradiction | reflexivity].
    - split; [discriminate | intros (s & H & _); discriminate H]. }
  rewrite !Htruthy. split.
  - intros ((b & Hb & Hb') & (a & Ha & Ha') & (s & Hs & Hs') & (r & Hr & Hr') & _).
    exists b, a, s, r. auto 10.
  - intros (b & a & s & r & Hb & Ha & Hs & Hr & Hb' & Ha' & Hs' & Hr').
    repeat split; eauto.
Qed.


(** ** What a computation may add to the trace *)

Section Appends.

Context {A : Type} (allowed : event -> bool).

Lemma appends_ret (a : A) : appends allowed (ret a).
Proof. intros w. split; [reflexivity|]. exists []. rewrite app_nil_r. auto. Qed.

Lemma appends_raise (e : exn) : appends allowed (@raise A e).
Proof. intros w. split; [reflexivity|]. exists []. rewrite app_nil_r. auto. Qed.

Lemma appends_try_except (m : M A) (handlers : exn -> option (M A)) :
  appends allowed m ->
  (forall e handler, handlers e = Some handler -> appends allowed handler) ->
  appends allowed (try_except m handlers).
Proof.
  intros Hm Hh w. unfold try_except.
  specialize (Hm w). destruct (m w) as [[a|e] w1]; [exact Hm|].
  destruct (handlers e) as [handler|] eqn:He; [|exact Hm].
  cbn [snd] in Hm. destruct Hm as (Hfiles & evs1 & Htrace & Hall).
  destruct (Hh e handler He w1) as (Hfiles2 & evs2 & Htrace2 & Hall2).
  split; [congruence|]. exists (evs1 ++ evs2)%list.
  rewrite Htrace2, Htrace, <- app_assoc, forallb_app, Hall, Hall2. auto.
Qed.

End Appends.

Lemma appends_emit (allowed : event -> bool) (ev : event) :
  allowed ev = true -> appends allowed (emit ev).
Proof.
  intros H w. split; [reflexivity|]. exists [ev]. simpl. rewrite H. auto.
Qed.

Lemma appends_bind {A B} (allowed : event -> bool) (m : M A) (k : A -> M B) :
  appends allowed m -> (forall a, appends allowed (k a)) -> appends allowed (bind m k).
Proof.
  intros Hm Hk w. unfold bind.
  specialize (Hm w). destruct (m w) as [[a|e] w1]; [|exact Hm].
  cbn [snd] in Hm. destruct Hm as (Hfiles & evs1 & Htrace & Hall).
  destruct (Hk a w1) as (Hfiles2 & evs2 & Htrace2 & Hall2).
  split; [congruence|]. exists (evs1 ++ evs2)%list.
  rewrite Htrace2, Htrace, <- app_assoc, forallb_app, Hall, Hall2. auto.
Qed.

Lemma appends_weaken {A} (allowed allowed' : event -> bool) (m : M A) :
  (forall ev, allowed ev = true -> allowed' ev = true) ->
  appends allowed m -> appends allowed' m.
Proof.
  intros Hsub Hm w. destruct (Hm w) as (Hfiles & evs & Htrace & Hall).
  split; [exact Hfiles|]. exists evs. split; [exact Htrace|].
  rewrite forallb_forall in *. auto.
Qed.

Section Handler_traces.

Context (E : Externals) (cfg : Config).

(** The upload talks to S3 and logs; it touches no file and never calls
    yt-dlp. *)
Lemma upload_appends (filename path : string) :
  appends s3_call_or_log (upload E cfg filename path).
Proof.
  unfold upload, upload_steps, new_s3_client, upload_file, generate_presigned_url, log.
  apply appends_try_except.
  - repeat (first [ apply appends_bind; [|intros ?]
                  | apply appends_emit; reflexivity
                  | apply appends_ret
                  | apply appends_raise ]).
    + destruct (boto3_client E _ _ _); [apply appends_raise | apply appends_ret].
    + intros w. split.
      * destruct (s3_upload_file E _ _ _ _); reflexivity.
      * exists []. rewrite app_nil_r.
        destruct (s3_upload_file E _ _ _ _); auto.
    + destruct (s3_generate_presigned_url E _ _ _); [apply appends_raise | apply appends_ret].
  - intros e handler He. unfold upload_handlers, log in He.
    destruct e; try discriminate He; injection He as <-;
      (apply appends_bind; [apply appends_emit; reflexivity | intros ?; apply appends_raise]).
Qed.

(** Each [except] clause of the outer [try] only logs. *)
Lemma outer_handlers_append (e : exn) (handler : M Body) :
  outer_handlers e = Some handler -> appends is_log handler.
Proof.
  intros He. unfold outer_handlers, log in He.
  destruct e; try discriminate He; injection He as <-;
    (apply appends_bind; [apply appends_emit; reflexivity | intros ?; apply appends_raise]).
Qed.

End Handler_traces.

(** ** The world after a run *)

Section Worlds.

Context (E : Externals) (cfg : Config).
Context (request : DownloadRequest) (filename path : string).

(** The [try] statement with its [except] clauses: the files are the ones
    yt-dlp left; the trace gains the call to yt-dlp and then events that are
    no further call to it, and no call to S3 unless the upload is reached. *)
Lemma guarded_world (w : World) (r : option exn) (fs : gset string) :
  ydl_download E (ydl_opts request path) [url request] (files w) = (r, fs) ->
  files (snd (guarded E cfg request filename path w)) = fs /\
  exists evs,
    trace (snd (guarded E cfg request filename path w)) =
      (trace w ++ Download (ydl_opts request path) [url request] :: evs)%list /\
    forallb not_download evs = true /\
    (reaches_upload cfg request path r fs = false -> forallb not_s3_call evs = true).
Proof.
  intros Hdl. unfold guarded, try_except.
  destruct r as [e|].
  - rewrite (try_body_download_raises E cfg request filename path w e fs Hdl).
    destruct e; cbn [outer_handlers is_Exception snd files trace];
      unfold bind, log, emit, raise; cbn [snd files trace];
      (split; [reflexivity|]);
      try (eexists; split; [rewrite <- app_assoc; reflexivity | split; reflexivity]).
    exists []. split; [reflexivity | split; reflexivity].
  - rewrite (try_body_downloaded E cfg request filename path w fs Hdl).
    unfold reaches_upload.
    destruct (bool_decide (path ∈ fs)); cbn [negb andb].
    + destruct (to_s3 request); cbn [andb].
      * destruct (storage_configured cfg); cbn [negb].
        -- pose proof (upload_appends E cfg filename path (downloaded request path fs w))
             as (Hfiles & evs & Htrace & Hall).
           assert (forallb not_download evs = true) as Hnd.
           { rewrite forallb_forall in *. intros ev Hev.
             specialize (Hall ev Hev). destruct ev; try reflexivity; discriminate Hall. }
           destruct (upload E cfg filename path (downloaded request path fs w))
             as [[body|e] w2]; cbn [snd] in *.
           ++ split; [exact Hfiles|].
              exists (Log INFO ("Descarga completada. Archivo guardado en: " ++ path) :: evs).
              rewrite Htrace. cbn [downloaded trace]. rewrite <- app_assoc.
              split; [reflexivity|]. split; [|discriminate].
              cbn [forallb]. rewrite Hnd. reflexivity.
           ++               destruct e; cbn [outer_handlers is_Exception snd files trace];
                unfold bind, log, emit, raise; cbn [snd files trace];
                (split; [exact Hfiles|]); rewrite Htrace; cbn [downloaded trace];
                eexists; (split; [rewrite <- !app_assoc; cbn [app]; reflexivity|]);
                (split; [|discriminate]);
                cbn [forallb not_download is_download negb andb];
                rewrite ?forallb_app, Hnd; reflexivity.
        -- unfold bind, log, emit, raise, downloaded. cbn [outer_handlers is_Exception snd files trace].
           unfold bind, log, emit, raise. cbn [snd files trace].
           split; [reflexivity|]. eexists.
           split; [rewrite <- !app_assoc; cbn [app]; reflexivity|]. split; reflexivity.
      * unfold downloaded. cbn [snd files trace]. split; [reflexivity|].
        eexists. split; [reflexivity|]. split; reflexivity.
    + unfold downloaded. cbn [outer_handlers is_Exception snd files trace].
      unfold bind, log, emit, raise. cbn [snd files trace].
      split; [reflexivity|]. eexists.
      split; [rewrite <- !app_assoc; cbn [app]; reflexivity|]. split; reflexivity.
Qed.

End Worlds.

Section Cleanup_world.

Context (E : Externals).

(** The [finally] block: the files lose at most [path]; the trace gains a
    removal and a log line, or nothing. *)
Lemma cleanup_world (path : string) (w : World) :
  (files (snd (cleanup E path w)) =
     if bool_decide (path ∈ files w) then
       match os_remove_error E path (files w) with
       | None => files w ∖ {[ path ]}
       | Some _ => files w
       end
     else files w) /\
  exists evs,
    trace (snd (cleanup E path w)) = (trace w ++ evs)%list /\
    forallb not_download evs = true /\ forallb not_s3_call evs = true.
Proof.
  destruct (decide (path ∈ files w)) as [Hin|Hout].
  - rewrite (bool_decide_eq_true_2 _ Hin).
    destruct (os_remove_error E path (files w)) as [msg|] eqn:Hrm.
    + rewrite (cleanup_failed E path msg w Hin Hrm). split; [reflexivity|].
      eexists. split; [reflexivity|]. split; reflexivity.
    + rewrite (cleanup_removed E path w Hin Hrm). split; [reflexivity|].
      eexists. split; [reflexivity|]. split; reflexivity.
  - rewrite (bool_decide_eq_false_2 _ Hout), (cleanup_absent E path w Hout).
    split; [reflexivity|]. exists []. rewrite app_nil_r. auto.
Qed.

End Cleanup_world.

Lemma no_download_filtered (evs : list event) :
  forallb not_download evs = true -> filter is_download evs = [].
Proof.
  induction evs as [|ev evs IH]; [reflexivity|].
  cbn [forallb]. intros [Hev Hevs]%andb_prop.
  rewrite filter_cons_False; [exact (IH Hevs)|].
  unfold not_download in Hev. destruct (is_download ev); [discriminate Hev | exact id].
Qed.

Lemma no_s3_call_filtered (evs : list event) :
  forallb not_s3_call evs = true -> filter is_s3_call evs = [].
Proof.
  induction evs as [|ev evs IH]; [reflexivity|].
  cbn [forallb]. intros [Hev Hevs]%andb_prop.
  rewrite filter_cons_False; [exact (IH Hevs)|].
  unfold not_s3_call in Hev. destruct (is_s3_call ev); [discriminate Hev | exact id].
Qed.

Section Runs.

Context (E : Externals) (cfg : Config).
Context (unique_id : UUID.t) (request : DownloadRequest) (w : World).

(** The world after the handler, from what yt-dlp did. *)
Lemma download_video_trace (r : option exn) (fs : gset string) :
  ydl_download E (ydl_opts request (output_path unique_id request)) [url request] (files w)
    = (r, fs) ->
  exists evs,
    trace (snd (download_video E cfg unique_id request w)) =
      (trace (started unique_id request w)
         ++ Download (ydl_opts request (output_path unique_id request)) [url request]
         :: evs)%list /\
    forallb not_download evs = true /\
    (reaches_upload cfg request (output_path unique_id request) r fs = false ->
     forallb not_s3_call evs = true).
Proof.
  intros Hdl. rewrite download_video_world.
  destruct (guarded_world E cfg request (output_filename unique_id request)
              (output_path unique_id request) (started unique_id request w) r fs Hdl)
    as (_ & evs1 & Htrace1 & Hnd1 & Hs1).
  destruct (cleanup_world E (output_path unique_id request)
              (snd (guarded E cfg request (output_filename unique_id request)
                      (output_path unique_id request) (started unique_id request w))))
    as (_ & evs2 & Htrace2 & Hnd2 & Hs2).
  exists (evs1 ++ evs2)%list. rewrite Htrace2, Htrace1, <- app_assoc.
  split; [reflexivity|]. rewrite !forallb_app, Hnd1, Hnd2, Hs2.
  split; [reflexivity|]. intros Hno. rewrite (Hs1 Hno). reflexivity.
Qed.

Lemma download_video_files (r : option exn) (fs : gset string) :
  ydl_download E (ydl_opts request (output_path unique_id request)) [url request] (files w)
    = (r, fs) ->
  files (snd (download_video E cfg unique_id request w)) =
    if bool_decide (output_path unique_id request ∈ fs) then
      match os_remove_error E (output_path unique_id request) fs with
      | None => fs ∖ {[ output_path unique_id request ]}
      | Some _ => fs
      end
    else fs.
Proof.
  intros Hdl. rewrite download_video_world.
  destruct (guarded_world E cfg request (output_filename unique_id request)
              (output_path unique_id request) (started unique_id request w) r fs Hdl)
    as (Hfiles & _).
  rewrite (proj1 (cleanup_world E (output_path unique_id request) _)), Hfiles.
  reflexivity.
Qed.

(** A body is returned only along the two success paths. *)
Lemma upload_return_inv (filename path : string) (w1 : World) (body : Body) :
  fst (upload E cfg filename path w1) = Return body ->
  boto3_client E (AWS_ACCESS_KEY_ID cfg) (AWS_SECRET_ACCESS_KEY cfg) (AWS_REGION cfg) = None /\
  s3_upload_file E path (S3_BUCKET cfg) filename (files w1) = None /\
  exists presigned,
    s3_generate_presigned_url E (S3_BUCKET cfg) filename 3600 = inr presigned /\
    body = FileUrl presigned.
Proof.
  unfold upload, try_except, upload_steps, new_s3_client, upload_file,
    generate_presigned_url, bind, log, emit, ret, raise.
  cbn [files trace].
  destruct (boto3_client E _ _ _) as [e|]; cbn [files trace].
  { destruct e; cbn; discriminate. }
  destruct (s3_upload_file E _ _ _ _) as [e|]; cbn [files trace].
  { destruct e; cbn; discriminate. }
  destruct (s3_generate_presigned_url E _ _ _) as [e|presigned]; cbn [files trace].
  { destruct e; cbn; discriminate. }
  cbn. intros [= <-]. eauto.
Qed.

Lemma download_video_return_inv (body : Body) :
  fst (download_video E cfg unique_id request w) = Return body ->
  exists fs,
    ydl_download E (ydl_opts request (output_path unique_id request)) [url request] (files w)
      = (None, fs) /\
    output_path unique_id request ∈ fs /\
    ((to_s3 request = false /\
      body = LocalFile "Archivo descargado localmente." (output_filename unique_id request)
               (os_path_abspath E (output_path unique_id request))) \/
     (to_s3 request = true /\ storage_configured cfg = true /\
      boto3_client E (AWS_ACCESS_KEY_ID cfg) (AWS_SECRET_ACCESS_KEY cfg) (AWS_REGION cfg)
        = None /\
      s3_upload_file E (output_path unique_id request) (S3_BUCKET cfg)
        (output_filename unique_id request) fs = None /\
      exists presigned,
        s3_generate_presigned_url E (S3_BUCKET cfg) (output_filename unique_id request) 3600
          = inr presigned /\
        body = FileUrl presigned)).
Proof.
  rewrite download_video_outcome. unfold guarded, try_except.
  destruct (ydl_download E (ydl_opts request (output_path unique_id request)) [url request]
              (files w)) as [[e|] fs] eqn:Hdl.
  - rewrite (try_body_download_raises E cfg request _ _ (started unique_id request w) e fs Hdl).
    destruct e; cbn; discriminate.
  - rewrite (try_body_downloaded E cfg request _ _ (started unique_id request w) fs Hdl).
    destruct (bool_decide (output_path unique_id request ∈ fs)) eqn:Hin; cbn [negb];
      [|cbn; discriminate].
    apply bool_decide_eq_true_1 in Hin.
    destruct (to_s3 request) eqn:Hs3.
    + destruct (storage_configured cfg) eqn:Hconf; cbn [negb]; [|cbn; discriminate].
      intros Hret. exists fs. split; [reflexivity|]. split; [exact Hin|]. right.
      split; [reflexivity|]. split; [reflexivity|].
      apply (upload_return_inv (output_filename unique_id request)
               (output_path unique_id request)
               (downloaded request (output_path unique_id request) fs
                  (started unique_id request w))).
      destruct (upload E cfg _ _ _) as [[b|e] w2]; [exact Hret|].
      destruct e; cbn in Hret; discriminate Hret.
    + cbn. intros [= <-]. exists fs. split; [reflexivity|]. split; [exact Hin|].
      left. split; reflexivity.
Qed.

End Runs.

Section Shapes.

Context (E : Externals) (cfg : Config).
Context (unique_id : UUID.t) (request : DownloadRequest) (w : World).

(** The four shapes of the handler's outcome. *)
Lemma download_video_shapes :
  (exists body, fst (download_video E cfg unique_id request w) = Return body) \/
  (exists msg,
     fst (download_video E cfg unique_id request w) =
       Raise (HTTPException 400 ("No se pudo descargar el video. Causa: " ++ msg))) \/
  (exists e,
     is_Exception e = true /\
     fst (download_video E cfg unique_id request w) =
       Raise (HTTPException 500 ("Error interno del servidor: " ++ str_exn e))) \/
  (exists msg, fst (download_video E cfg unique_id request w) = Raise (NonException msg)).
Proof.
  rewrite download_video_outcome. unfold guarded, try_except.
  destruct (try_body E cfg request _ _ _) as [[body|e] w1]; [left; eauto|].
  right. remember e as raised eqn:He.
  destruct e; rewrite He; cbn; eauto 6;
    right; left; exists raised; rewrite He; split; reflexivity.
Qed.

End Shapes.

(** ** What a run does and does not do *)

(** X8: every run of the handler calls yt-dlp exactly once, with the
    options built for the request and the request's URL as the only URL,
    whatever happens before or after. *)
Theorem one_download_per_request (E : Externals) (cfg : Config)
    (unique_id : UUID.t) (request : DownloadRequest) (w : World) :
  download_calls (snd (download_video E cfg unique_id request w)) =
    (download_calls w
       ++ [Download (ydl_opts request (output_path unique_id request)) [url request]])%list.
Proof.
  destruct (ydl_download E (ydl_opts request (output_path unique_id request)) [url request]
              (files w)) as [r fs] eqn:Hdl.
  destruct (download_video_trace E cfg unique_id request w r fs Hdl)
    as (evs & Htrace & Hnd & _).
  unfold download_calls. rewrite Htrace. cbn [started trace].
  rewrite !filter_app.
  rewrite (filter_cons_False _ (Log INFO _)) by exact id.
  rewrite (filter_cons_True _ (Download _ _)) by exact I.
  rewrite (no_download_filtered evs Hnd), filter_nil, app_nil_r. reflexivity.
Qed.

(** X9: the handler talks to S3 only when yt-dlp returned normally, the
    output file exists, the request asks for an upload and storage is
    configured.  In every other run no S3 client is created, nothing is
    uploaded and no URL is signed. *)
Theorem no_s3_unless_upload (E : Externals) (cfg : Config)
    (unique_id : UUID.t) (request : DownloadRequest) (w : World)
    (r : option exn) (fs : gset string) :
  ydl_download E (ydl_opts request (output_path unique_id request)) [url request] (files w)
    = (r, fs) ->
  reaches_upload cfg request (output_path unique_id request) r fs = false ->
  s3_calls (snd (download_video E cfg unique_id request w)) = s3_calls w.
Proof.
  intros Hdl Hno.
  destruct (download_video_trace E cfg unique_id request w r fs Hdl)
    as (evs & Htrace & _ & Hs3).
  unfold s3_calls. rewrite Htrace. cbn [started trace].
  rewrite !filter_app, !filter_cons_False by exact id.
  rewrite (no_s3_call_filtered evs (Hs3 Hno)), filter_nil, !app_nil_r. reflexivity.
Qed.

Lemma no_s3_unless_upload_witness :
  s3_calls (snd (download_video (sample_externals None true None None)
                   sample_config_no_storage sample_uuid (sample_request true) empty_world))
    = [].
Proof.
  exact (no_s3_unless_upload (sample_externals None true None None)
           sample_config_no_storage sample_uuid (sample_request true) empty_world
           None (∅ ∪ {[ output_path sample_uuid (sample_request true) ]})
           eq_refl eq_refl).
Defined.

(** X10: the only file the handler itself removes is the job's output
    file: every other path exists after the run exactly when it existed
    after yt-dlp ran. *)
Theorem only_output_file_removed (E : Externals) (cfg : Config)
    (unique_id : UUID.t) (request : DownloadRequest) (w : World) (other : string) :
  other <> output_path unique_id request ->
  other ∈ files (snd (download_video E cfg unique_id request w)) <->
  other ∈ snd (ydl_download E (ydl_opts request (output_path unique_id request))
                 [url request] (files w)).
Proof.
  intros Hne.
  destruct (ydl_download E (ydl_opts request (output_path unique_id request)) [url request]
              (files w)) as [r fs] eqn:Hdl.
  rewrite (download_video_files E cfg unique_id request w r fs Hdl). cbn [snd].
  destruct (bool_decide _); [|reflexivity].
  destruct (os_remove_error E _ _); [reflexivity|].
  rewrite elem_of_difference, elem_of_singleton. tauto.
Qed.

Lemma only_output_file_removed_witness :
  "temp_downloads/other.mp4"
    ∈ files (snd (download_video (sample_externals None true None None) sample_config
                    sample_uuid (sample_request false)
                    {| files := {[ "temp_downloads/other.mp4" ]}; trace := [] |})).
Proof.
  apply (only_output_file_removed (sample_externals None true None None) sample_config
           sample_uuid (sample_request false)
           {| files := {[ "temp_downloads/other.mp4" ]}; trace := [] |}
           "temp_downloads/other.mp4").
  - intros H. vm_compute in H. discriminate H.
  - apply (bool_decide_unpack _). vm_compute. exact I.
Defined.

(** X11: when [os.remove] does not fail, no run leaves a file at the job's
    output path, whether the request succeeded, failed or was aborted. *)
Theorem no_file_left_behind (E : Externals) (cfg : Config)
    (unique_id : UUID.t) (request : DownloadRequest) (w : World) :
  (forall fs, os_remove_error E (output_path unique_id request) fs = None) ->
  output_path unique_id request ∉ files (snd (download_video E cfg unique_id request w)).
Proof.
  intros Hrm.
  destruct (ydl_download E (ydl_opts request (output_path unique_id request)) [url request]
              (files w)) as [r fs] eqn:Hdl.
  rewrite (download_video_files E cfg unique_id request w r fs Hdl), Hrm.
  destruct (bool_decide _) eqn:Hin.
  - rewrite elem_of_difference, elem_of_singleton. tauto.
  - apply bool_decide_eq_false_1 in Hin. exact Hin.
Qed.

Lemma no_file_left_behind_witness :
  output_path sample_uuid (sample_request true)
    ∉ files (snd (download_video
                    (sample_externals (Some (OtherException "boom")) true None None)
                    sample_config sample_uuid (sample_request true) empty_world)).
Proof.
  apply (no_file_left_behind
           (sample_externals (Some (OtherException "boom")) true None None)
           sample_config sample_uuid (sample_request true) empty_world).
  intros fs. reflexivity.
Defined.

(** X12: the handler ends in one of four ways: a body (200), the 400 of a
    download error, a 500 whose detail starts with
    ["Error interno del servidor: "], or an exception outside [Exception]
    passing through.  No run is answered 501, or with any status other
    than 200, 400 and 500. *)
Theorem handler_statuses (E : Externals) (cfg : Config)
    (unique_id : UUID.t) (request : DownloadRequest) (w : World) :
  let status := response_status (fst (download_video E cfg unique_id request w)) in
  (status = Some 200%Z \/ status = Some 400%Z \/ status = Some 500%Z \/ status = None) /\
  status <> Some 501%Z /\
  (status = None <->
   exists msg, fst (download_video E cfg unique_id request w) = Raise (NonException msg)).
Proof.
  cbv zeta.
  destruct (download_video_shapes E cfg unique_id request w)
    as [[body ->] | [[msg ->] | [(e & _ & ->) | [msg ->]]]]; cbn;
    (split; [auto|]); (split; [discriminate|]);
    (split; [discriminate || eauto | intros [m Hm]; discriminate Hm || reflexivity]).
Qed.

(** X13: a returned body means the work was really done: yt-dlp returned
    normally and the output file existed; a [LocalFile] body is returned
    only for [to_s3] false, a [FileUrl] body only when storage is
    configured and the three S3 calls succeeded, and the URL is the one
    signed for the job's file name with a validity of 3600 seconds. *)
Theorem success_means_done (E : Externals) (cfg : Config)
    (unique_id : UUID.t) (request : DownloadRequest) (w : World) (body : Body) :
  fst (download_video E cfg unique_id request w) = Return body ->
  exists fs,
    ydl_download E (ydl_opts request (output_path unique_id request)) [url request] (files w)
      = (None, fs) /\
    output_path unique_id request ∈ fs /\
    ((to_s3 request = false /\
      body = LocalFile "Archivo descargado localmente." (output_filename unique_id request)
               (os_path_abspath E (output_path unique_id request))) \/
     (to_s3 request = true /\ storage_configured cfg = true /\
      boto3_client E (AWS_ACCESS_KEY_ID cfg) (AWS_SECRET_ACCESS_KEY cfg) (AWS_REGION cfg)
        = None /\
      s3_upload_file E (output_path unique_id request) (S3_BUCKET cfg)
        (output_filename unique_id request) fs = None /\
      exists presigned,
        s3_generate_presigned_url E (S3_BUCKET cfg) (output_filename unique_id request) 3600
          = inr presigned /\
        body = FileUrl presigned)).
Proof. exact (download_video_return_inv E cfg unique_id request w body). Qed.

Lemma success_means_done_witness :
  exists fs,
    ydl_download (sample_externals None true None None)
      (ydl_opts (sample_request false) (output_path sample_uuid (sample_request false)))
      [url (sample_request false)] (files empty_world) = (None, fs) /\
    output_path sample_uuid (sample_request false) ∈ fs.
Proof.
  destruct (success_means_done (sample_externals None true None None) sample_config
              sample_uuid (sample_request false) empty_world
              (LocalFile "Archivo descargado localmente."
                 "3f2b8c1e-9d4a-4f6a-b7c5-d1e2f3a4b5c6.mp4"
                 "/srv/api/temp_downloads/3f2b8c1e-9d4a-4f6a-b7c5-d1e2f3a4b5c6.mp4"))
    as (fs & Hdl & Hin & _).
  - vm_compute. reflexivity.
  - exists fs. split; assumption.
Defined.

(** X14: an exception that is neither a download error nor outside
    [Exception] is answered 500 with its own text after
    ["Error interno del servidor: "], whether yt-dlp raised it or an S3 call
    raised it and the inner [except] clauses did not match. *)
Theorem unexpected_exception_is_500 (E : Externals) (cfg : Config)
    (unique_id : UUID.t) (request : DownloadRequest) (w : World) (e : exn) :
  is_Exception e = true ->
  (forall msg, e <> DownloadError msg) ->
  (forall fs,
     ydl_download E (ydl_opts request (output_path unique_id request)) [url request] (files w)
       = (Some e, fs) ->
     fst (download_video E cfg unique_id request w) =
       Raise (HTTPException 500 ("Error interno del servidor: " ++ str_exn e))) /\
  (forall fs,
     ydl_download E (ydl_opts request (output_path unique_id request)) [url request] (files w)
       = (None, fs) ->
     output_path unique_id request ∈ fs ->
     to_s3 request = true ->
     storage_configured cfg = true ->
     upload_handlers e = None ->
     fst (upload_steps E cfg (output_filename unique_id request)
            (output_path unique_id request)
            (downloaded request (output_path unique_id request) fs
               (started unique_id request w))) = Raise e ->
     fst (download_video E cfg unique_id request w) =
       Raise (HTTPException 500 ("Error interno del servidor: " ++ str_exn e))).
Proof.
  intros Hexc Hne. split.
  - intros fs Hdl. rewrite download_video_outcome.
    rewrite (guarded_exception E cfg request _ _ _ _ e
               (try_body_download_raises E cfg request _ _
                  (started unique_id request w) e fs Hdl) Hexc Hne).
    reflexivity.
  - intros fs Hdl Hin Hs3 Hconf Hnone Hsteps. rewrite download_video_outcome.
    pose proof (try_body_configured E cfg unique_id request w fs Hdl Hin Hs3 Hconf) as Hbody.
    unfold upload, try_except in Hbody.
    destruct (upload_steps E cfg _ _ _) as [r w2]. cbn [fst] in Hsteps. subst r.
    rewrite Hnone in Hbody.
    rewrite (guarded_exception E cfg request _ _ _ _ e Hbody Hexc Hne). reflexivity.
Qed.

Lemma unexpected_exception_is_500_witness :
  fst (download_video
         (sample_externals None true (Some (OtherException "S3UploadFailedError")) None)
         sample_config sample_uuid (sample_request true) empty_world) =
    Raise (HTTPException 500 "Error interno del servidor: S3UploadFailedError").
Proof.
  refine (proj2 (unexpected_exception_is_500
                   (sample_externals None true
                      (Some (OtherException "S3UploadFailedError")) None)
                   sample_config sample_uuid (sample_request true) empty_world
                   (OtherException "S3UploadFailedError") eq_refl _)
            (∅ ∪ {[ output_path sample_uuid (sample_request true) ]})
            eq_refl _ eq_refl eq_refl eq_refl _).
  - discriminate.
  - apply (bool_decide_unpack _). vm_compute. exact I.
  - vm_compute. reflexivity.
Defined.

(** X15: a body without [to_s3] asks for an upload.  On a service whose
    storage is not configured such a request is never answered 200 and
    never reaches S3, whatever the header, the URL and the collaborators
    do. *)
Theorem upload_by_default_needs_storage (E : Externals) (cfg : Config)
    (authorization : option string) (payload : Payload) (unique_id : UUID.t) (w : World) :
  raw_to_s3 payload = None ->
  storage_configured cfg = false ->
  response_status (fst (post_download E cfg authorization payload unique_id w))
    <> Some 200%Z /\
  s3_calls (snd (post_download E cfg authorization payload unique_id w)) = s3_calls w.
Proof.
  intros Hraw Hconf. unfold post_download, bind, lift, api_key_header.
  destruct authorization as [value|]; [|split; [discriminate | reflexivity]].
  destruct (String.eqb value ""); [split; [discriminate | reflexivity]|].
  destruct (get_api_key_total cfg value) as [(token & -> & _) | (detail & ->)];
    [|split; [discriminate | reflexivity]].
  unfold validate.
  destruct (raw_url payload) as [u|]; [|split; [discriminate | reflexivity]].
  destruct (parse_http_url E u) as [normalised|]; [|split; [discriminate | reflexivity]].
  rewrite Hraw. cbn [default].
  set (request := {| url := normalised; format := default "mp4" (raw_format payload);
                     to_s3 := true |}).
  split.
  - destruct (download_video_shapes E cfg unique_id request w)
      as [[body Hret] | [[msg ->] | [(e & _ & ->) | [msg ->]]]]; try discriminate.
    destruct (download_video_return_inv E cfg unique_id request w body Hret)
      as (fs & _ & _ & [[Hs3 _] | (_ & Hc & _)]).
    + discriminate Hs3.
    + rewrite Hconf in Hc. discriminate Hc.
  - destruct (ydl_download E (ydl_opts request (output_path unique_id request))
                [url request] (files w)) as [r fs] eqn:Hdl.
    destruct (download_video_trace E cfg unique_id request w r fs Hdl)
      as (evs & Htrace & _ & Hs3).
    assert (reaches_upload cfg request (output_path unique_id request) r fs = false) as Hno.
    { unfold reaches_upload. rewrite Hconf, andb_false_r. destruct r; reflexivity. }
    unfold s3_calls. rewrite Htrace. cbn [started trace].
    rewrite !filter_app, !filter_cons_False by exact id.
    rewrite (no_s3_call_filtered evs (Hs3 Hno)), filter_nil, !app_nil_r. reflexivity.
Qed.

Lemma upload_by_default_needs_storage_witness :
  response_status
    (fst (post_download (sample_externals None true None None) sample_config_no_storage
            (Some "Bearer s3cr3t")
            {| raw_url := Some "https://youtu.be/abc123"; raw_format := None;
               raw_to_s3 := None |}
            sample_uuid empty_world)) <> Some 200%Z.
Proof.
  exact (proj1 (upload_by_default_needs_storage (sample_externals None true None None)
                  sample_config_no_storage (Some "Bearer s3cr3t")
                  {| raw_url := Some "https://youtu.be/abc123"; raw_format := None;
                     raw_to_s3 := None |}
                  sample_uuid empty_world eq_refl eq_refl)).
Defined.
